(** * pylgnetcast: the LG NetCast client, embedded and verified

    A shallow embedding of [pylgnetcast/pylgnetcast.py].  The client object
    and everything the client does to the outside world (HTTP requests,
    printed lines) live in an explicit state; Python exceptions are an error
    outcome of a small state-and-exception monad.  The two libraries the
    client calls, [requests] and [xml.etree.ElementTree], are kept apart in
    modules of their own names. *)

From Stdlib Require Import ZArith List String Ascii Bool Lia.
From Stdlib Require Import Decimal DecimalString.
Import ListNotations.

Local Open Scope list_scope.
Local Open Scope string_scope.

(** ** Python values the client formats with [%s] *)

(** [str(n)] for a Python [int]. *)
Definition str_int (n : Z) : string := NilZero.string_of_int (Z.to_int n).

(** [str(v)] for a value that is [None] or a [str]: the access token and the
    session attribute are such values. *)
Definition str_opt (v : option string) : string :=
  match v with
  | None => "None"
  | Some s => s
  end.

(** Truth value of [None] and of a [str] (the empty one is false). *)
Definition truthy (v : option string) : bool :=
  match v with
  | None => false
  | Some s => negb (s =? "")
  end.

(** ** xml.etree.ElementTree: the element tree and its lookups *)

Module ElementTree.

(** An [Element]: tag, attributes, the text before the first child, the
    tail after the closing tag, and the children in document order.
    [text] and [tail] are [None] when there is no character data. *)
#[warnings="-register-all"]
Inductive Element : Type :=
  mkElement (tag : string) (attrib : list (string * string))
            (text tail : option string) (children : list Element).

Definition tag (e : Element) : string :=
  match e with mkElement t _ _ _ _ => t end.

Definition attrib (e : Element) : list (string * string) :=
  match e with mkElement _ a _ _ _ => a end.

Definition text (e : Element) : option string :=
  match e with mkElement _ _ x _ _ => x end.

Definition tail (e : Element) : option string :=
  match e with mkElement _ _ _ x _ => x end.

Definition children (e : Element) : list Element :=
  match e with mkElement _ _ _ _ c => c end.

(** [Element.find(name)] with a plain tag name: the first direct child
    carrying that tag, or [None]. *)
Definition find (name : string) (e : Element) : option Element :=
  List.find (fun c => tag c =? name) (children e).

(** [Element.iter(name)] with a plain tag name: the element itself when
    its tag matches, then the matches of each child in turn. *)
Fixpoint iter (name : string) (e : Element) : list Element :=
  match e with
  | mkElement t _ _ _ cs =>
      ((if t =? name then [e] else [])
         ++ (fix iter_all (l : list Element) : list Element :=
               match l with
               | [] => []
               | c :: l' => iter name c ++ iter_all l'
               end) cs)%list
  end.

(** Every element of the tree, parents before children, siblings left to
    right: document order. *)
Fixpoint preorder (e : Element) : list Element :=
  match e with
  | mkElement _ _ _ _ cs =>
      e :: (fix preorder_all (l : list Element) : list Element :=
              match l with
              | [] => []
              | c :: l' => (preorder c ++ preorder_all l')%list
              end) cs
  end.

(** *** Reading a document

    [XML] below follows [ElementTree.XML] on the fragment of XML the TV
    protocol is written in: the declaration line the client itself writes,
    elements without attributes, and character data in printable ASCII with
    the five predefined entities and no bare [>].  Anything outside that
    fragment is refused, so a document this reader accepts is one the
    library accepts, with the same tree. *)

(** The double quote character. *)
Definition quote : ascii := "034"%char.

Definition is_letter (c : ascii) : bool :=
  ((("a" <=? c) && (c <=? "z")) || (("A" <=? c) && (c <=? "Z")))%char.

Definition is_digit (c : ascii) : bool :=
  (("0" <=? c) && (c <=? "9"))%char.

Definition is_name_start (c : ascii) : bool :=
  is_letter c || (c =? "_")%char.

Definition is_name_char (c : ascii) : bool :=
  is_name_start c || is_digit c || (c =? "-")%char || (c =? ".")%char.

Definition is_space (c : ascii) : bool :=
  ((c =? " ") || (c =? "009") || (c =? "010"))%char.

(** Characters that stand for themselves in character data. *)
Definition is_chardata (c : ascii) : bool :=
  (is_space c || ((" " <=? c) && (c <=? "~"))%char)
    && negb (c =? "<")%char && negb (c =? "&")%char && negb (c =? ">")%char.

Fixpoint read_name (s : string) : string * string :=
  match s with
  | String c r =>
      if is_name_char c
      then let (n, r') := read_name r in (String c n, r')
      else ("", s)
  | "" => ("", "")
  end.

Definition valid_name (n : string) : bool :=
  match n with
  | String c _ => is_name_start c
  | "" => false
  end.

Fixpoint skip_space (s : string) : string :=
  match s with
  | String c r => if is_space c then skip_space r else s
  | "" => ""
  end.

(** The raw characters up to the next tag. *)
Fixpoint read_chars (s : string) : string * string :=
  match s with
  | String c r =>
      if (c =? "<")%char then ("", s)
      else let (t, r') := read_chars r in (String c t, r')
  | "" => ("", "")
  end.

Definition entity (name : string) : option ascii :=
  if name =? "lt" then Some "<"%char
  else if name =? "gt" then Some ">"%char
  else if name =? "amp" then Some "&"%char
  else if name =? "quot" then Some quote
  else if name =? "apos" then Some "'"%char
  else None.

(** Character data with its entity references replaced; [ent] holds the
    name of a reference that has been opened by [&] and not yet closed. *)
Fixpoint unescape (ent : option string) (s : string) : option string :=
  match s with
  | "" => match ent with None => Some "" | Some _ => None end
  | String c r =>
      match ent with
      | None =>
          if (c =? "&")%char then unescape (Some "") r
          else if is_chardata c then option_map (String c) (unescape None r)
          else None
      | Some name =>
          if (c =? ";")%char
          then match entity name with
               | Some ch => option_map (String ch) (unescape None r)
               | None => None
               end
          else unescape (Some (name ++ String c "")) r
      end
  end.

Fixpoint strip_prefix (p s : string) : option string :=
  match p with
  | "" => Some s
  | String a p' =>
      match s with
      | String b s' => if (a =? b)%char then strip_prefix p' s' else None
      | "" => None
      end
  end.

(** No character data is [None], as in the library. *)
Definition chars_or_none (s : string) : option string :=
  if s =? "" then None else Some s.

Definition set_tail (e : Element) (t : option string) : Element :=
  match e with mkElement n a x _ cs => mkElement n a x t cs end.

Fixpoint read_element (fuel : nat) (s : string) : option (Element * string) :=
  match fuel with
  | O => None
  | S fuel' =>
      match s with
      | String c r =>
          if (c =? "<")%char then
            let (name, r1) := read_name r in
            if valid_name name then
              match r1 with
              | String c1 r2 =>
                  if (c1 =? "/")%char then
                    match r2 with
                    | String c2 r3 =>
                        if (c2 =? ">")%char
                        then Some (mkElement name [] None None [], r3)
                        else None
                    | "" => None
                    end
                  else if (c1 =? ">")%char then
                    let (raw, r3) := read_chars r2 in
                    match unescape None raw with
                    | None => None
                    | Some txt =>
                        match read_children fuel' r3 with
                        | None => None
                        | Some (cs, r4) =>
                            match strip_prefix ("</" ++ name ++ ">") r4 with
                            | None => None
                            | Some r5 =>
                                Some (mkElement name [] (chars_or_none txt)
                                                None cs, r5)
                            end
                        end
                    end
                  else None
              | "" => None
              end
            else None
          else None
      | "" => None
      end
  end

with read_children (fuel : nat) (s : string) : option (list Element * string) :=
  match fuel with
  | O => None
  | S fuel' =>
      match strip_prefix "</" s with
      | Some _ => Some ([], s)
      | None =>
          match read_element fuel' s with
          | None => None
          | Some (e, r) =>
              let (raw, r1) := read_chars r in
              match unescape None raw with
              | None => None
              | Some tl =>
                  match read_children fuel' r1 with
                  | None => None
                  | Some (es, r2) =>
                      Some (set_tail e (chars_or_none tl) :: es, r2)
                  end
              end
          end
      end
  end.

Definition declaration : string :=
  "<?xml version=" ++ String quote "1.0" ++ String quote " encoding="
    ++ String quote "utf-8" ++ String quote "?>".

(** [ElementTree.XML(text)]: the root element, or [None] for a ParseError. *)
Definition XML (s : string) : option Element :=
  let body := match strip_prefix declaration s with
              | Some r => r
              | None => s
              end in
  match read_element (S (String.length body)) (skip_space body) with
  | Some (e, r) => if skip_space r =? "" then Some e else None
  | None => None
  end.

(** *** Writing an element

    [ElementTree.tostring(element, encoding='unicode')]: no declaration,
    markup characters escaped, an element with neither text nor children
    written in its short form, the element's tail written after it. *)

Fixpoint escape_cdata (s : string) : string :=
  match s with
  | "" => ""
  | String c r =>
      (if (c =? "&")%char then "&amp;"
       else if (c =? "<")%char then "&lt;"
       else if (c =? ">")%char then "&gt;"
       else String c "") ++ escape_cdata r
  end.

Fixpoint escape_attrib (s : string) : string :=
  match s with
  | "" => ""
  | String c r =>
      (if (c =? "&")%char then "&amp;"
       else if (c =? "<")%char then "&lt;"
       else if (c =? ">")%char then "&gt;"
       else if (c =? quote)%char then "&quot;"
       else if (c =? "013")%char then "&#13;"
       else if (c =? "010")%char then "&#10;"
       else if (c =? "009")%char then "&#09;"
       else String c "") ++ escape_attrib r
  end.

Fixpoint write_attribs (l : list (string * string)) : string :=
  match l with
  | [] => ""
  | (k, v) :: l' =>
      " " ++ k ++ "=" ++ String quote (escape_attrib v)
          ++ String quote (write_attribs l')
  end.

Definition write_chars (x : option string) : string :=
  match x with
  | Some s => escape_cdata s
  | None => ""
  end.

Fixpoint tostring (e : Element) : string :=
  match e with
  | mkElement t a x tl cs =>
      "<" ++ t ++ write_attribs a
        ++ (if truthy x || negb (Nat.eqb (List.length cs) 0)
            then ">" ++ write_chars x
                 ++ (fix write_all (l : list Element) : string :=
                       match l with
                       | [] => ""
                       | c :: l' => tostring c ++ write_all l'
                       end) cs
                 ++ "</" ++ t ++ ">"
            else " />")
        ++ (if truthy tl then write_chars tl else "")
  end.

End ElementTree.

(** ** requests: what is sent and what comes back *)

Module requests.

Module codes.
Definition ok : Z := 200.
End codes.

Inductive Method : Type := GET | POST.

(** One call of [requests.post] or [requests.get], with its arguments. *)
Record Request : Type := mkRequest {
  method : Method;
  req_url : string;
  data : option string;
  params : option (list (string * string));
  headers : list (string * string);
  timeout : Z
}.

Record Response : Type := mkResponse {
  status_code : Z;
  text : string
}.

End requests.

Import requests.

(** ** Module constants and catalogues *)

Definition LG_HANDLE_KEY_INPUT : string := "HandleKeyInput".
Definition LG_HANDLE_MOUSE_MOVE : string := "HandleTouchMove".
Definition LG_HANDLE_MOUSE_CLICK : string := "HandleTouchClick".
Definition LG_HANDLE_TOUCH_WHEEL : string := "HandleTouchWheel".
Definition LG_HANDLE_CHANNEL_CHANGE : string := "HandleChannelChange".

Definition DEFAULT_PORT : Z := 8080.
Definition DEFAULT_TIMEOUT : Z := 3.

(** LG TV remote control commands. *)
Module LG_COMMAND.

Definition APPS : Z := 417.
Definition ASPECT_RATIO : Z := 46.
Definition AUDIO_DESCRIPTION : Z := 407.
Definition AV_MODE : Z := 410.
Definition BACK : Z := 23.
Definition BLUE : Z := 29.
Definition CHANNEL_DOWN : Z := 28.
Definition CHANNEL_UP : Z := 27.
Definition DASH : Z := 402.
Definition DOWN : Z := 13.
Definition ENERGY_SAVING : Z := 409.
Definition EPG : Z := 44.
Definition EXIT : Z := 412.
Definition EXTERNAL_INPUT : Z := 47.
Definition FAST_FORWARD : Z := 36.
Definition FAVORITE_CHANNEL : Z := 404.
Definition GREEN : Z := 30.
Definition HOME_MENU : Z := 21.
Definition LEFT : Z := 14.
Definition LIVE_TV : Z := 43.
Definition LR_3D : Z := 401.
Definition MARK : Z := 52.
Definition MUTE_TOGGLE : Z := 26.
Definition NUMBER_0 : Z := 2.
Definition NUMBER_1 : Z := 3.
Definition NUMBER_2 : Z := 4.
Definition NUMBER_3 : Z := 5.
Definition NUMBER_4 : Z := 6.
Definition NUMBER_5 : Z := 7.
Definition NUMBER_6 : Z := 8.
Definition NUMBER_7 : Z := 9.
Definition NUMBER_8 : Z := 10.
Definition NUMBER_9 : Z := 11.
Definition OK : Z := 20.
Definition PAUSE : Z := 34.
Definition PIP_CHANNEL_DOWN : Z := 415.
Definition PIP_CHANNEL_UP : Z := 414.
Definition PIP_SECONDARY_VIDEO : Z := 48.
Definition PLAY : Z := 33.
Definition POWER : Z := 1.
Definition PREVIOUS_CHANNEL : Z := 403.
Definition PROGRAM_INFORMATION : Z := 45.
Definition PROGRAM_LIST : Z := 50.
Definition QUICK_MENU : Z := 405.
Definition RECORD : Z := 40.
Definition RECORDING_LIST : Z := 41.
Definition RED : Z := 31.
Definition REPEAT : Z := 42.
Definition RESERVATION_PROGRAM_LIST : Z := 413.
Definition REWIND : Z := 37.
Definition RIGHT : Z := 15.
Definition SHOW_SUBTITLE : Z := 49.
Definition SIMPLINK : Z := 411.
Definition SKIP_BACKWARD : Z := 39.
Definition SKIP_FORWARD : Z := 38.
Definition STOP : Z := 35.
Definition SWITCH_VIDEO : Z := 416.
Definition TELE_TEXT : Z := 51.
Definition TEXT_OPTION : Z := 406.
Definition UP : Z := 12.
Definition VIDEO_3D : Z := 400.
Definition VOLUME_DOWN : Z := 25.
Definition VOLUME_UP : Z := 24.
Definition YELLOW : Z := 32.

End LG_COMMAND.

(** Remote control commands of the 2011 models. *)
Module LG_COMMAND_2011.

Definition AUDIO_DESCRIPTION : Z := 145.
Definition AUDIO_LANGUAGE : Z := 10.
Definition AV_MODE : Z := 48.
Definition AV1 : Z := 90.
Definition AV2 : Z := 208.
Definition AV3 : Z := 209.
Definition BACK : Z := 40.
Definition BLUE : Z := 97.
Definition CHANNEL_BACK : Z := 26.
Definition CHANNEL_DOWN : Z := 1.
Definition CHANNEL_LIST : Z := 83.
Definition CHANNEL_UP : Z := 0.
Definition CINEMA_ZOOM : Z := 175.
Definition COMPONENT : Z := 191.
Definition COMPONENT_RGB_HDMI : Z := 152.
Definition DOWN : Z := 65.
Definition ENERGY_SAVING : Z := 149.
Definition EXIT : Z := 91.
Definition FACTORY_ADVANCED_MENU1 : Z := 251.
Definition FACTORY_ADVANCED_MENU2 : Z := 255.
Definition FACTORY_PICTURE_CHECK : Z := 252.
Definition FACTORY_SOUND_CHECK : Z := 253.
Definition FAST_FORWARD : Z := 142.
Definition FAVORITES : Z := 30.
Definition GREEN : Z := 113.
Definition GREYED_OUT_ADD_BUTTON : Z := 85.
Definition GUIDE : Z := 169.
Definition HDMI : Z := 198.
Definition HDMI1 : Z := 206.
Definition HDMI2 : Z := 204.
Definition HDMI3 : Z := 233.
Definition HDMI4 : Z := 218.
Definition HOME_MENU : Z := 67.
Definition INFO : Z := 170.
Definition INPUT : Z := 11.
Definition INSTALLATION_MENU : Z := 207.
Definition LEFT : Z := 7.
Definition LIVE_TV : Z := 158.
Definition MUTE_TOGGLE : Z := 9.
Definition NUMBER_0 : Z := 16.
Definition NUMBER_1 : Z := 17.
Definition NUMBER_2 : Z := 18.
Definition NUMBER_3 : Z := 19.
Definition NUMBER_4 : Z := 20.
Definition NUMBER_5 : Z := 21.
Definition NUMBER_6 : Z := 22.
Definition NUMBER_7 : Z := 23.
Definition NUMBER_8 : Z := 24.
Definition NUMBER_9 : Z := 25.
Definition PAUSE : Z := 186.
Definition PICTURE_MODE : Z := 77.
Definition PLAY : Z := 176.
Definition POWER : Z := 8.
Definition PREMIUM_MENU : Z := 89.
Definition QUICK_MENU : Z := 69.
Definition RATIO : Z := 121.
Definition RATIO_16_9 : Z := 119.
Definition RATIO_4_3 : Z := 118.
Definition RECORD : Z := 189.
Definition RED : Z := 114.
Definition REWIND : Z := 143.
Definition RGB : Z := 213.
Definition RIGHT : Z := 6.
Definition SELECT_CMD : Z := 68.
Definition SIMPLINK : Z := 126.
Definition SLEEP_TIMER : Z := 14.
Definition SLIDESHOW_USB1 : Z := 238.
Definition SLIDESHOW_USB2 : Z := 168.
Definition SOUND_MODE : Z := 82.
Definition STATUS_BAR : Z := 35.
Definition STOP : Z := 177.
Definition SUBTITLE_LANGUAGE : Z := 57.
Definition T_OPT : Z := 33.
Definition TELETEXT : Z := 32.
Definition THREE_D : Z := 220.
Definition TV_RADIO : Z := 15.
Definition UNDERSCORE : Z := 76.
Definition UP : Z := 64.
Definition USB : Z := 124.
Definition VOLUME_DOWN : Z := 3.
Definition VOLUME_UP : Z := 2.
Definition YELLOW : Z := 99.

End LG_COMMAND_2011.

(** LG TV data queries. *)
Module LG_QUERY.

Definition CUR_CHANNEL : string := "cur_channel".
Definition CHANNEL_LIST : string := "channel_list".
Definition CONTEXT_UI : string := "context_ui".
Definition VOLUME_INFO : string := "volume_info".
Definition SCREEN_IMAGE : string := "screen_image".
Definition IS_3D : string := "is_3d".

End LG_QUERY.

(** Supported LG TV protocols. *)
Module LG_PROTOCOL.

Definition HDCP : string := "hdcp".
Definition ROAP : string := "roap".

End LG_PROTOCOL.

(** ** The client *)

(** The exceptions a call on the client can end in: the two the module
    defines, and those of the libraries and of Python itself that no code
    of the client catches. *)
Inductive Exn : Type :=
| AccessTokenError (msg : string)
| SessionIdError (msg : string)
| ParseError
| AttributeError
| TypeError
| KeyError
| RequestException.

Inductive Outcome (A : Type) : Type :=
| Return (a : A)
| Raise (e : Exn).

Arguments Return {A} a.
Arguments Raise {A} e.

(** The object's attributes, as [__init__] sets them.  The access token and
    the session are [None] or a [str]. *)
Record Client : Type := mkClient {
  url : string;
  access_token : option string;
  protocol : string;
  _session : option string
}.

(** The client object together with what it has done so far: the requests
    handed to [requests], oldest first, and the lines printed. *)
Record World : Type := mkWorld {
  self : Client;
  sent : list Request;
  stdout : list string
}.

Definition Py (A : Type) : Type := World -> Outcome A * World.

Definition ret {A : Type} (a : A) : Py A := fun w => (Return a, w).

Definition raise {A : Type} (e : Exn) : Py A := fun w => (Raise e, w).

Definition bind {A B : Type} (m : Py A) (k : A -> Py B) : Py B :=
  fun w =>
    match m w with
    | (Return a, w') => k a w'
    | (Raise e, w') => (Raise e, w')
    end.

Notation "x <- m ;; k" := (bind m (fun x => k))
  (at level 61, m at next level, right associativity).
Notation "m ;; k" := (bind m (fun _ => k))
  (at level 61, right associativity).

Definition get_self : Py Client := fun w => (Return (self w), w).

Definition set_session (v : option string) : Py unit :=
  fun w =>
    let c := self w in
    (Return tt,
     mkWorld (mkClient (url c) (access_token c) (protocol c) v)
             (sent w) (stdout w)).

Definition print (line : string) : Py unit :=
  fun w => (Return tt, mkWorld (self w) (sent w) (stdout w ++ [line])%list).

(** [payload[key]] on a [dict] given as its items, or on [None]. *)
Fixpoint lookup (key : string) (items : list (string * string)) : option string :=
  match items with
  | [] => None
  | (k, v) :: items' => if k =? key then Some v else lookup key items'
  end.

Definition getitem (payload : option (list (string * string))) (key : string)
  : Py string :=
  match payload with
  | None => raise TypeError
  | Some items =>
      match lookup key items with
      | Some v => ret v
      | None => raise KeyError
      end
  end.

Module LgNetCastClient.

Definition HEADER : list (string * string) :=
  [("Content-Type", "application/atom+xml")].

Definition XML : string :=
  "<?xml version=" ++ String ElementTree.quote "1.0"
    ++ String ElementTree.quote " encoding="
    ++ String ElementTree.quote "utf-8" ++ String ElementTree.quote "?>".

Definition KEY : string := XML ++ "<auth><type>AuthKeyReq</type></auth>".

(** [AUTH % (t, v)] *)
Definition AUTH (t v : string) : string :=
  XML ++ "<auth><type>" ++ t ++ "</type><value>" ++ v ++ "</value></auth>".

(** [COMMAND % (s, t, body)] *)
Definition COMMAND (s t body : string) : string :=
  XML ++ "<command><session>" ++ s ++ "</session><type>" ++ t ++ "</type>"
      ++ body ++ "</command>".

(** [__init__(self, host, access_token, protocol)] *)
Definition __init__ (host : string) (token : option string) (proto : string)
  : Client :=
  mkClient ("http://" ++ host ++ ":" ++ str_int DEFAULT_PORT ++ "/" ++ proto
              ++ "/api/")
           token proto None.

Section Methods.

(** The TV behind [requests]: given the requests made before and the one
    made now, the response, or [None] when the call raises instead
    (connection refused, timeout). *)
Variable tv : list Request -> Request -> option Response.

(** [ElementTree.XML] and [ElementTree.tostring]. *)
Variable ElementTree_XML : string -> option ElementTree.Element.
Variable ElementTree_tostring : ElementTree.Element -> string.

Definition call (r : Request) : Py Response :=
  fun w =>
    let w' := mkWorld (self w) (sent w ++ [r])%list (stdout w) in
    match tv (sent w) r with
    | Some resp => (Return resp, w')
    | None => (Raise RequestException, w')
    end.

Definition requests_post (u : string) (body : string)
  (h : list (string * string)) (t : Z) : Py Response :=
  call (mkRequest POST u (Some body) None h t).

Definition requests_get (u : string) (p : option (list (string * string)))
  (h : list (string * string)) (t : Z) : Py Response :=
  call (mkRequest GET u None p h t).

(** The first statement of [_send_to_tv]: the message type as the client's
    protocol rewrites it. *)
Definition message_path (proto message_type : string) : string :=
  if proto =? LG_PROTOCOL.HDCP then
    if message_type =? "auth" then "auth" else "dtv_wifirc"
  else message_type.

Definition _send_to_tv (message_type : string) (message : option string)
  (payload : option (list (string * string))) : Py Response :=
  me <- get_self ;;
  let message_type := message_path (protocol me) message_type in
  response <-
    (if truthy message then
       let u := url me ++ message_type in
       print ("POST " ++ str_opt message ++ " to " ++ u) ;;
       requests_post u (str_opt message) HEADER DEFAULT_TIMEOUT
     else
       target <- getitem payload "target" ;;
       let u := url me ++ "data?target=" ++ target ++ "&session="
                   ++ str_opt (_session me) in
       print ("GET " ++ target ++ " from " ++ u) ;;
       requests_get u payload HEADER DEFAULT_TIMEOUT) ;;
  print ("Received: " ++ text response) ;;
  ret response.

Definition _display_pair_key : Py unit :=
  _send_to_tv "auth" (Some KEY) None ;;
  ret tt.

Definition _get_session_id : Py (option string) :=
  me <- get_self ;;
  if negb (truthy (access_token me)) then
    _display_pair_key ;;
    raise (AccessTokenError "No access token specified to create session.")
  else
    let message := AUTH "AuthReq" (str_opt (access_token me)) in
    response <- _send_to_tv "auth" (Some message) None ;;
    if negb (status_code response =? codes.ok)%Z then
      raise (SessionIdError "Can not get session id from TV.")
    else
      match ElementTree_XML (text response) with
      | None => raise ParseError
      | Some tree =>
          match ElementTree.find "session" tree with
          | None => raise AttributeError
          | Some session => ret (ElementTree.text session)
          end
      end.

(** [__enter__]: the result is the client itself. *)
Definition __enter__ : Py Client :=
  session <- _get_session_id ;;
  set_session session ;;
  get_self.

Definition __exit__ : Py unit :=
  set_session None.

(** [send_command] and [change_channel] have no [return]: the call's value
    is [None], whatever [_send_to_tv] handed back. *)
Definition send_command (command : Z) : Py (option Response) :=
  me <- get_self ;;
  let message := COMMAND (str_opt (_session me)) LG_HANDLE_KEY_INPUT
                         ("<value>" ++ str_int command ++ "</value>") in
  _send_to_tv "command" (Some message) None ;;
  ret None.

Definition change_channel (channel : ElementTree.Element)
  : Py (option Response) :=
  me <- get_self ;;
  let message := COMMAND (str_opt (_session me)) LG_HANDLE_CHANNEL_CHANGE
                         (ElementTree_tostring channel) in
  _send_to_tv "command" (Some message) None ;;
  ret None.

(** [query_data]: the list of matches, or [None] when the [if] is not
    taken. *)
Definition query_data (query : string)
  : Py (option (list ElementTree.Element)) :=
  response <- _send_to_tv "data" None (Some [("target", query)]) ;;
  if (status_code response =? codes.ok)%Z then
    match ElementTree_XML (text response) with
    | None => raise ParseError
    | Some tree =>
        let data_list :=
          List.fold_left (fun data_list data => (data_list ++ [data])%list)
                         (ElementTree.iter "data" tree) [] in
        ret (Some data_list)
    end
  else ret None.

End Methods.

End LgNetCastClient.

(** ** Text that survives being written between two tags unchanged *)

Fixpoint all_chars (p : ascii -> bool) (s : string) : bool :=
  match s with
  | "" => true
  | String c r => p c && all_chars p r
  end.

(** Non-empty character data in which every character stands for itself. *)
Definition plain_text (s : string) : bool :=
  negb (s =? "") && all_chars ElementTree.is_chardata s.

(** The elements that carry a given tag. *)
Definition has_tag (name : string) (e : ElementTree.Element) : bool :=
  ElementTree.tag e =? name.

(** The text of the first direct child with a given tag, [None] when there
    is no such child or it has no text. *)
Definition child_text (name : string) (e : ElementTree.Element)
  : option string :=
  match ElementTree.find name e with
  | Some c => ElementTree.text c
  | None => None
  end.

(** An element with text only. *)
Definition leaf (name txt : string) : ElementTree.Element :=
  ElementTree.mkElement name [] (Some txt) None [].

(** ** The requests on the wire *)

Module Wire.

Import LgNetCastClient.

(** Display pair key: the key request posted to [auth]. *)
Definition key_request (c : Client) : Request :=
  mkRequest POST (url c ++ "auth") (Some KEY) None HEADER DEFAULT_TIMEOUT.

(** Authenticate: the client's token posted to [auth]. *)
Definition auth_request (c : Client) : Request :=
  mkRequest POST (url c ++ "auth")
            (Some (AUTH "AuthReq" (str_opt (access_token c))))
            None HEADER DEFAULT_TIMEOUT.

(** A message posted to a path below the base URL. *)
Definition post_request (c : Client) (path message : string) : Request :=
  mkRequest POST (url c ++ path) (Some message) None HEADER DEFAULT_TIMEOUT.

(** Query data: a GET whose URL carries the target and the session. *)
Definition data_request (c : Client) (query : string) : Request :=
  mkRequest GET
            (url c ++ "data?target=" ++ query ++ "&session="
               ++ str_opt (_session c))
            None (Some [("target", query)]) HEADER DEFAULT_TIMEOUT.

(** The envelope of a key-input command under a given session value. *)
Definition key_message (session : option string) (command : Z) : string :=
  COMMAND (str_opt session) LG_HANDLE_KEY_INPUT
          ("<value>" ++ str_int command ++ "</value>").

(** The tree a key-input envelope stands for. *)
Definition key_envelope (session : string) (command : Z)
  : ElementTree.Element :=
  ElementTree.mkElement "command" [] None None
    [leaf "session" session; leaf "type" LG_HANDLE_KEY_INPUT;
     leaf "value" (str_int command)].

End Wire.

(** ** The world after a request *)

(** The world after one answered POST: the request logged, two lines
    printed. *)
Definition after_post (w : World) (r : Request) (resp : Response) : World :=
  mkWorld (self w) (sent w ++ [r])%list
          ((stdout w ++ [("POST " ++ str_opt (data r) ++ " to "
                            ++ req_url r)%string])
             ++ [("Received: " ++ text resp)%string])%list.

(** The world after a POST that raised. *)
Definition after_failed_post (w : World) (r : Request) : World :=
  mkWorld (self w) (sent w ++ [r])%list
          (stdout w ++ [("POST " ++ str_opt (data r) ++ " to "
                           ++ req_url r)%string])%list.

Definition with_session (w : World) (v : option string) : World :=
  mkWorld (mkClient (url (self w)) (access_token (self w))
                    (protocol (self w)) v)
          (sent w) (stdout w).

(** The world after one answered GET for a query target. *)
Definition after_get (w : World) (r : Request) (query : string)
  (resp : Response) : World :=
  mkWorld (self w) (sent w ++ [r])%list
          ((stdout w ++ [("GET " ++ query ++ " from " ++ req_url r)%string])
             ++ [("Received: " ++ text resp)%string])%list.

(** The world after a GET that raised. *)
Definition after_failed_get (w : World) (r : Request) (query : string)
  : World :=
  mkWorld (self w) (sent w ++ [r])%list
          (stdout w ++ [("GET " ++ query ++ " from " ++ req_url r)%string])%list.

(** The request a key-input command makes. *)
Definition key_request_of (c : Client) (command : Z) : Request :=
  Wire.post_request c
    (LgNetCastClient.message_path (protocol c) "command")
    (Wire.key_message (_session c) command).

(** The request a channel change makes, given the written descriptor. *)
Definition channel_request_of (c : Client) (descriptor : string) : Request :=
  Wire.post_request c
    (LgNetCastClient.message_path (protocol c) "command")
    (LgNetCastClient.COMMAND (str_opt (_session c))
       LG_HANDLE_CHANNEL_CHANGE descriptor).

(** ** Televisions to run the client against *)

(** A TV that answers every request with the same response. *)
Definition tv_answering (resp : Response)
  : list Request -> Request -> option Response :=
  fun _ _ => Some resp.

(** A TV that cannot be reached: every call raises. *)
Definition tv_unreachable : list Request -> Request -> option Response :=
  fun _ _ => None.

(** A client just constructed, nothing done yet. *)
Definition fresh (host : string) (token : option string) (proto : string)
  : World :=
  mkWorld (LgNetCastClient.__init__ host token proto) [] [].

(** ** Channel descriptors that can be written and read back *)

(** Characters the writer can put between two tags: those that stand for
    themselves and the three it escapes. *)
Definition is_writable (c : ascii) : bool :=
  ElementTree.is_chardata c
  || (c =? "<")%char || (c =? ">")%char || (c =? "&")%char.

(** A text or tail: absent, or non-empty and writable. *)
Definition writable_text (x : option string) : bool :=
  match x with
  | None => true
  | Some s => negb (s =? "") && all_chars is_writable s
  end.

(** An element tree of the fragment: plain tag names, no attributes,
    writable text and tails, and no element without content (which the
    writer would put in its short form). *)
Fixpoint well_formed (e : ElementTree.Element) : bool :=
  match e with
  | ElementTree.mkElement t a x tl cs =>
      ElementTree.valid_name t
      && all_chars ElementTree.is_name_char t
      && match a with [] => true | _ :: _ => false end
      && writable_text x
      && writable_text tl
      && (truthy x || negb (Nat.eqb (List.length cs) 0))
      && forallb well_formed cs
  end.

(** The element as written, without its tail. *)
Definition markup (e : ElementTree.Element) : string :=
  ElementTree.tostring (ElementTree.set_tail e None).

(** A list of elements as written one after the other, tails included. *)
Fixpoint write_each (l : list ElementTree.Element) : string :=
  match l with
  | [] => ""
  | c :: l' => ElementTree.tostring c ++ write_each l'
  end.

(** Fuel that is enough to read an element back: one unit for the element,
    one for the end of its children and one for each child. *)
Fixpoint need (e : ElementTree.Element) : nat :=
  match e with
  | ElementTree.mkElement _ _ _ _ cs =>
      S (fold_right (fun c n => S (need c + n)) 1 cs)
  end.

Definition need_all (l : list ElementTree.Element) : nat :=
  fold_right (fun c n => S (need c + n)) 1 l.

(** An element that the reader gives back from what the writer wrote, with
    enough fuel and whatever follows. *)
Definition reads_back (e : ElementTree.Element) : Prop :=
  well_formed e = true ->
  forall (fuel : nat) (rest : string),
    need e <= fuel ->
    ElementTree.read_element fuel (markup e ++ rest)
    = Some (ElementTree.set_tail e None, rest).

(** The tree a channel-change envelope stands for. *)
Definition channel_envelope (session : string)
  (channel : ElementTree.Element) : ElementTree.Element :=
  ElementTree.mkElement "command" [] None None
    [leaf "session" session; leaf "type" LG_HANDLE_CHANNEL_CHANGE; channel].

(** ** Using the client over time *)

(** What a caller can do with a client object, one call at a time. *)
Inductive Op : Type :=
| Enter
| Exit
| Command (command : Z)
| Channel (channel : ElementTree.Element)
| Query (query : string).

Section Running.

Variable tv : list Request -> Request -> option Response.
Variable parse : string -> option ElementTree.Element.
Variable tostring : ElementTree.Element -> string.

(** The world after one call, whether it returned or raised: a caller that
    catches the exception goes on with the same object. *)
Definition step (o : Op) (w : World) : World :=
  match o with
  | Enter => snd (LgNetCastClient.__enter__ tv parse w)
  | Exit => snd (LgNetCastClient.__exit__ w)
  | Command c => snd (LgNetCastClient.send_command tv c w)
  | Channel ch => snd (LgNetCastClient.change_channel tv tostring ch w)
  | Query q => snd (LgNetCastClient.query_data tv parse q w)
  end.

Definition run (ops : list Op) (w : World) : World :=
  fold_left (fun w' o => step o w') ops w.

End Running.

(** The calls that reach the network. *)
Definition makes_request (o : Op) : bool :=
  match o with
  | Exit => false
  | _ => true
  end.

(** A request as this client makes them: the client's header, the default
    timeout, a URL below the client's base URL. *)
Definition from_client (c : Client) (r : Request) : Prop :=
  headers r = LgNetCastClient.HEADER
  /\ timeout r = DEFAULT_TIMEOUT
  /\ exists path, req_url r = url c ++ path.

(** The tree an auth request body stands for. *)
Definition auth_envelope (token : string) : ElementTree.Element :=
  ElementTree.mkElement "auth" [] None None
    [leaf "type" "AuthReq"; leaf "value" token].

(** ** Concrete exchanges *)

Module Scenario.

Import ElementTree.

Definition host : string := "192.168.1.10".
Definition token : string := "123456".

(** A client with a token, one without, and one for the older protocol. *)
Definition paired : World := fresh host (Some token) LG_PROTOCOL.ROAP.
Definition unpaired : World := fresh host (Some "") LG_PROTOCOL.ROAP.
Definition legacy : World := fresh host (Some token) LG_PROTOCOL.HDCP.

(** The TV grants a session. *)
Definition granted_body : string :=
  LgNetCastClient.XML
    ++ "<envelope><ROAPError>200</ROAPError>"
    ++ "<ROAPErrorDetail>OK</ROAPErrorDetail>"
    ++ "<session>1234567890</session></envelope>".

Definition granted_tree : Element :=
  mkElement "envelope" [] None None
    [leaf "ROAPError" "200"; leaf "ROAPErrorDetail" "OK";
     leaf "session" "1234567890"].

Definition granted : Response := mkResponse 200 granted_body.

(** The same session element, one level further down. *)
Definition nested_body : string :=
  "<envelope><data><session>1234567890</session></data></envelope>".

Definition nested_tree : Element :=
  mkElement "envelope" [] None None
    [mkElement "data" [] None None [leaf "session" "1234567890"]].

Definition nested : Response := mkResponse 200 nested_body.

(** A session whose text is itself an entity reference. *)
Definition escaped_body : string :=
  "<envelope><session>&amp;amp;</session></envelope>".

Definition escaped : Response := mkResponse 200 escaped_body.

(** The TV refuses; the TV fails. *)
Definition refused : Response :=
  mkResponse 401 "<envelope><ROAPError>401</ROAPError></envelope>".

Definition failing : Response := mkResponse 500 "Internal Server Error".

(** A query answer with [data] elements at three depths. *)
Definition data_a : Element :=
  mkElement "data" [] None None [leaf "name" "a"].
Definition data_b : Element :=
  mkElement "data" [] None None [leaf "name" "b"].
Definition data_c : Element :=
  mkElement "data" [] None None [leaf "name" "c"].

Definition three_body : string :=
  "<envelope><data><name>a</name></data><dataList>"
    ++ "<data><name>b</name></data>"
    ++ "<group><data><name>c</name></data></group>"
    ++ "</dataList></envelope>".

Definition three_tree : Element :=
  mkElement "envelope" [] None None
    [data_a;
     mkElement "dataList" [] None None
       [data_b; mkElement "group" [] None None [data_c]]].

Definition three : Response := mkResponse 200 three_body.

(** The same body under status 201, a success status other than 200. *)
Definition created : Response := mkResponse 201 three_body.

(** A query answer without any [data] element. *)
Definition empty_body : string :=
  "<envelope><ROAPError>200</ROAPError></envelope>".

Definition empty_tree : Element :=
  mkElement "envelope" [] None None [leaf "ROAPError" "200"].

Definition empty : Response := mkResponse 200 empty_body.

(** A channel descriptor. *)
Definition channel : Element :=
  mkElement "data" [] None None [leaf "major" "7"; leaf "minor" "0"].

(** The client after connecting to a TV that grants a session, and after
    leaving the context again. *)
Definition connected : World :=
  snd (LgNetCastClient.__enter__ (tv_answering granted) XML paired).

Definition disconnected : World :=
  snd (LgNetCastClient.__exit__ connected).

(** The client after connecting to the TV with the entity session. *)
Definition connected_escaped : World :=
  snd (LgNetCastClient.__enter__ (tv_answering escaped) XML paired).

(** Status 200 with a body that is no XML. *)
Definition garbled : Response := mkResponse 200 "Internal Server Error".

(** Status 200 with a session element that has no text. *)
Definition blank_body : string := "<envelope><session/></envelope>".

Definition blank_tree : Element :=
  mkElement "envelope" [] None None [mkElement "session" [] None None []].

Definition blank : Response := mkResponse 200 blank_body.

End Scenario.

(** * Properties *)

Lemma chardata_not_lt (c : ascii) :
  ElementTree.is_chardata c = true -> (c =? "<")%char = false.
Proof.
  unfold ElementTree.is_chardata. intros H.
  destruct (c =? "<")%char; [ | reflexivity ].
  rewrite !andb_true_iff in H. simpl in H. intuition discriminate.
Qed.

Lemma chardata_not_amp (c : ascii) :
  ElementTree.is_chardata c = true -> (c =? "&")%char = false.
Proof.
  unfold ElementTree.is_chardata. intros H.
  destruct (c =? "&")%char; [ | reflexivity ].
  rewrite !andb_true_iff in H. simpl in H. intuition discriminate.
Qed.

Lemma read_chars_plain (t rest : string) :
  all_chars ElementTree.is_chardata t = true ->
  ElementTree.read_chars (t ++ String "<" rest) = (t, String "<" rest).
Proof.
  induction t as [ | c t IH ]; simpl; intros H.
  - reflexivity.
  - apply andb_true_iff in H. destruct H as [Hc Ht].
    rewrite (chardata_not_lt c Hc), (IH Ht). reflexivity.
Qed.

Lemma unescape_plain (t : string) :
  all_chars ElementTree.is_chardata t = true ->
  ElementTree.unescape None t = Some t.
Proof.
  induction t as [ | c t IH ]; simpl; intros H.
  - reflexivity.
  - apply andb_true_iff in H. destruct H as [Hc Ht].
    rewrite (chardata_not_amp c Hc), Hc, (IH Ht). reflexivity.
Qed.

Lemma plain_text_chars (s : string) :
  plain_text s = true -> all_chars ElementTree.is_chardata s = true.
Proof.
  unfold plain_text. intros H. apply andb_true_iff in H. tauto.
Qed.

Lemma plain_text_some (s : string) :
  plain_text s = true -> ElementTree.chars_or_none s = Some s.
Proof.
  unfold plain_text, ElementTree.chars_or_none. intros H.
  apply andb_true_iff in H. destruct H as [H _].
  destruct (s =? ""); [ discriminate | reflexivity ].
Qed.

Lemma append_assoc (a b c : string) : (a ++ b) ++ c = a ++ b ++ c.
Proof.
  induction a as [ | x a IH ]; simpl; [ reflexivity | now rewrite IH ].
Qed.

Lemma name_char_not_gt (name rest : string) :
  all_chars ElementTree.is_name_char name = true ->
  ElementTree.read_name (name ++ String ">" rest) = (name, String ">" rest).
Proof.
  induction name as [ | c name IH ]; simpl; intros H.
  - reflexivity.
  - apply andb_true_iff in H. destruct H as [Hc Hn].
    rewrite Hc, (IH Hn). reflexivity.
Qed.

Lemma strip_prefix_app (p r : string) :
  ElementTree.strip_prefix p (p ++ r) = Some r.
Proof.
  induction p as [ | c p IH ]; simpl.
  - reflexivity.
  - rewrite Ascii.eqb_refl. exact IH.
Qed.

Lemma strip_prefix_common (p q r : string) :
  ElementTree.strip_prefix (p ++ q) (p ++ r) = ElementTree.strip_prefix q r.
Proof.
  induction p as [ | c p IH ]; simpl.
  - reflexivity.
  - rewrite Ascii.eqb_refl. exact IH.
Qed.

Lemma strip_closing_tag (name rest : string) :
  ElementTree.strip_prefix ("</" ++ name ++ ">")
    (String "<" (String "/" (name ++ String ">" rest)))
  = Some rest.
Proof.
  change ("</" ++ name ++ ">") with (String "<" (String "/" (name ++ ">"))).
  cbn [ElementTree.strip_prefix]. rewrite !Ascii.eqb_refl.
  rewrite strip_prefix_common. cbn [ElementTree.strip_prefix].
  rewrite Ascii.eqb_refl. reflexivity.
Qed.

(** A tag name does not start with a slash, so an opening tag is never
    taken for a closing one. *)
Lemma open_tag_not_close (name rest : string) :
  ElementTree.valid_name name = true ->
  ElementTree.strip_prefix "</" (String "<" (name ++ rest)) = None.
Proof.
  destruct name as [ | c name ]; cbn -[Ascii.eqb]; [ discriminate | ].
  intros H. destruct (Ascii.eqb_spec "/" c) as [ <- | _ ].
  - discriminate H.
  - reflexivity.
Qed.

(** A text-only element is read back as written, whatever follows it. *)
Lemma read_element_leaf (fuel : nat) (name t rest : string) :
  ElementTree.valid_name name = true ->
  all_chars ElementTree.is_name_char name = true ->
  plain_text t = true ->
  ElementTree.read_element (S (S fuel))
    ("<" ++ name ++ ">" ++ t ++ "</" ++ name ++ ">" ++ rest)
  = Some (leaf name t, rest).
Proof.
  intros Hv Hn Ht. pose proof (plain_text_chars t Ht) as Hc.
  change ("<" ++ name ++ ">" ++ t ++ "</" ++ name ++ ">" ++ rest)
    with (String "<" (name ++ String ">"
            (t ++ String "<" (String "/" (name ++ String ">" rest))))).
  cbn [ElementTree.read_element Ascii.eqb Bool.eqb].
  rewrite (name_char_not_gt name _ Hn), Hv.
  cbn [Ascii.eqb Bool.eqb].
  rewrite (read_chars_plain t _ Hc), (unescape_plain t Hc).
  cbn [ElementTree.read_children ElementTree.strip_prefix Ascii.eqb Bool.eqb].
  rewrite strip_closing_tag, (plain_text_some t Ht). reflexivity.
Qed.

Lemma read_children_step (fuel : nat) (s : string) :
  ElementTree.read_children (S fuel) s
  = match ElementTree.strip_prefix "</" s with
    | Some _ => Some ([], s)
    | None =>
        match ElementTree.read_element fuel s with
        | None => None
        | Some (e, r) =>
            let (raw, r1) := ElementTree.read_chars r in
            match ElementTree.unescape None raw with
            | None => None
            | Some tl =>
                match ElementTree.read_children fuel r1 with
                | None => None
                | Some (es, r2) =>
                    Some (ElementTree.set_tail e (ElementTree.chars_or_none tl)
                            :: es, r2)
                end
            end
        end
    end.
Proof. reflexivity. Qed.

(** At a closing tag the list of children ends. *)
Lemma read_children_end (fuel : nat) (rest : string) :
  ElementTree.read_children (S fuel) ("</" ++ rest) = Some ([], "</" ++ rest).
Proof. reflexivity. Qed.

(** A text-only child directly followed by markup is read, and the reading
    goes on with what follows. *)
Lemma read_children_leaf (fuel : nat) (name t rest r2 : string)
  (es : list ElementTree.Element) :
  ElementTree.valid_name name = true ->
  all_chars ElementTree.is_name_char name = true ->
  plain_text t = true ->
  ElementTree.read_children (S (S fuel)) ("<" ++ rest) = Some (es, r2) ->
  ElementTree.read_children (S (S (S fuel)))
    ("<" ++ name ++ ">" ++ t ++ "</" ++ name ++ ">" ++ "<" ++ rest)
  = Some (leaf name t :: es, r2).
Proof.
  intros Hv Hn Ht Hrest.
  rewrite read_children_step.
  change ("<" ++ name ++ ">" ++ t ++ "</" ++ name ++ ">" ++ "<" ++ rest)
    with (String "<" (name ++ (">" ++ t ++ "</" ++ name ++ ">" ++ "<" ++ rest)))
    at 1.
  rewrite (open_tag_not_close name _ Hv).
  rewrite (read_element_leaf fuel name t ("<" ++ rest) Hv Hn Ht).
  change (ElementTree.read_chars ("<" ++ rest)) with ("", "<" ++ rest).
  cbn [ElementTree.unescape].
  rewrite Hrest. reflexivity.
Qed.

(** An element whose content starts with a child has no text of its own. *)
Lemma read_element_parent (fuel : nat) (name body rest : string)
  (cs : list ElementTree.Element) :
  ElementTree.valid_name name = true ->
  all_chars ElementTree.is_name_char name = true ->
  ElementTree.read_children fuel ("<" ++ body)
  = Some (cs, "</" ++ name ++ ">" ++ rest) ->
  ElementTree.read_element (S fuel) ("<" ++ name ++ ">" ++ "<" ++ body)
  = Some (ElementTree.mkElement name [] None None cs, rest).
Proof.
  intros Hv Hn Hcs.
  change ("<" ++ name ++ ">" ++ "<" ++ body)
    with (String "<" (name ++ String ">" ("<" ++ body))).
  cbn [ElementTree.read_element Ascii.eqb Bool.eqb].
  rewrite (name_char_not_gt name _ Hn), Hv.
  cbn [Ascii.eqb Bool.eqb].
  change (ElementTree.read_chars ("<" ++ body)) with ("", "<" ++ body).
  cbn [ElementTree.unescape].
  rewrite Hcs.
  change ("</" ++ name ++ ">" ++ rest)
    with (String "<" (String "/" (name ++ String ">" rest))).
  rewrite strip_closing_tag. reflexivity.
Qed.

(** The command envelope with a [<value>] body reads back as a [command]
    root with three text-only children, as long as the three texts are
    plain. *)
Lemma XML_command_envelope (s t v : string) :
  plain_text s = true -> plain_text t = true -> plain_text v = true ->
  ElementTree.XML
    (LgNetCastClient.COMMAND s t ("<value>" ++ v ++ "</value>"))
  = Some (ElementTree.mkElement "command" [] None None
            [leaf "session" s; leaf "type" t; leaf "value" v]).
Proof.
  intros Hs Ht Hv.
  unfold ElementTree.XML, LgNetCastClient.COMMAND.
  change LgNetCastClient.XML with ElementTree.declaration.
  rewrite strip_prefix_app.
  set (body := "<command><session>" ++ s ++ "</session><type>" ++ t
                 ++ "</type>" ++ ("<value>" ++ v ++ "</value>") ++ "</command>").
  change (ElementTree.skip_space body) with body.
  change (S (String.length body))
    with (S (S (S (S (S (S (13 + String.length
           (s ++ "</session><type>" ++ t ++ "</type>"
              ++ ("<value>" ++ v ++ "</value>") ++ "</command>")))))))).
  set (f := 13 + String.length _).
  assert (Hvalue : forall v', "<value>" ++ v' = String "<" ("value>" ++ v'))
    by reflexivity.
  replace body
    with ("<" ++ "command" ++ ">" ++ "<"
            ++ ("session" ++ ">" ++ s ++ "</" ++ "session" ++ ">" ++ "<"
            ++ ("type" ++ ">" ++ t ++ "</" ++ "type" ++ ">" ++ "<"
            ++ ("value" ++ ">" ++ v ++ "</" ++ "value" ++ ">" ++ "</"
            ++ ("command" ++ ">" ++ "")))));
    [ | unfold body; cbn [String.append];
        rewrite !append_assoc; reflexivity ].
  rewrite (read_element_parent (S (S (S (S (S f))))) "command" _ ""
             [leaf "session" s; leaf "type" t; leaf "value" v]);
    [ reflexivity | reflexivity | reflexivity | ].
  apply (read_children_leaf (S (S f)) "session" s); try reflexivity; [ exact Hs | ].
  apply (read_children_leaf (S f) "type" t); try reflexivity; [ exact Ht | ].
  apply (read_children_leaf f "value" v "/command>"); try reflexivity; exact Hv.
Qed.

(** ** Decimal strings are plain text *)

Lemma uint_chars (d : Decimal.uint) :
  all_chars ElementTree.is_chardata (NilEmpty.string_of_uint d) = true.
Proof.
  induction d; simpl; try reflexivity; exact IHd.
Qed.

Lemma uint_plain (d : Decimal.uint) :
  plain_text (NilZero.string_of_uint d) = true.
Proof.
  unfold plain_text. apply andb_true_iff. split.
  - destruct d; reflexivity.
  - destruct d; try reflexivity; exact (uint_chars _).
Qed.

Lemma str_int_plain (n : Z) : plain_text (str_int n) = true.
Proof.
  unfold str_int. destruct (Z.to_int n) as [ d | d ]; simpl.
  - exact (uint_plain d).
  - pose proof (uint_plain d) as H. unfold plain_text in *.
    apply andb_true_iff in H. destruct H as [_ H].
    simpl. exact H.
Qed.

(** ** One call of [_send_to_tv] *)

Section Sending.

Import LgNetCastClient Wire.

Variable tv : list Request -> Request -> option Response.

Lemma message_path_auth (proto : string) : message_path proto "auth" = "auth".
Proof.
  unfold message_path. destruct (proto =? LG_PROTOCOL.HDCP); reflexivity.
Qed.

(** A message that starts with the XML declaration is posted. *)
Lemma send_post (message_type rest : string) (w : World) :
  _send_to_tv tv message_type (Some (XML ++ rest)) None w
  = let r := post_request (self w)
               (message_path (protocol (self w)) message_type) (XML ++ rest) in
    let out := (stdout w ++ [("POST " ++ (XML ++ rest) ++ " to " ++ req_url r)%string])%list in
    match tv (sent w) r with
    | Some resp =>
        (Return resp,
         mkWorld (self w) (sent w ++ [r])
                 (out ++ [("Received: " ++ text resp)%string])%list)
    | None => (Raise RequestException, mkWorld (self w) (sent w ++ [r])%list out)
    end.
Proof.
  unfold _send_to_tv, bind, get_self, requests_post, call, print, ret.
  cbn. destruct (tv (sent w) _); reflexivity.
Qed.

(** Without a message the call is a GET on the data path. *)
Lemma send_get (message_type query : string) (w : World) :
  _send_to_tv tv message_type None (Some [("target", query)]) w
  = let r := data_request (self w) query in
    let out := (stdout w ++ [("GET " ++ query ++ " from " ++ req_url r)%string])%list in
    match tv (sent w) r with
    | Some resp =>
        (Return resp,
         mkWorld (self w) (sent w ++ [r])
                 (out ++ [("Received: " ++ text resp)%string])%list)
    | None => (Raise RequestException, mkWorld (self w) (sent w ++ [r])%list out)
    end.
Proof.
  unfold _send_to_tv, bind, get_self, requests_get, call, print, ret, getitem.
  cbn. destruct (tv (sent w) _); reflexivity.
Qed.

End Sending.

(** ** Walking the element tree *)

(** Induction on an element with the hypothesis for every child. *)
Lemma Element_forall_ind (P : ElementTree.Element -> Prop) :
  (forall t a x tl cs, Forall P cs -> P (ElementTree.mkElement t a x tl cs)) ->
  forall e, P e.
Proof.
  intros step.
  refine (fix go (e : ElementTree.Element) : P e :=
            match e with
            | ElementTree.mkElement t a x tl cs =>
                step t a x tl cs
                  ((fix go_all (l : list ElementTree.Element) : Forall P l :=
                      match l with
                      | [] => Forall_nil P
                      | c :: l' => Forall_cons c (go c) (go_all l')
                      end) cs)
            end).
Qed.

(** [iter] visits the tree in document order and keeps the elements with
    the tag asked for. *)
Lemma iter_is_filtered_preorder (name : string) (e : ElementTree.Element) :
  ElementTree.iter name e = filter (has_tag name) (ElementTree.preorder e).
Proof.
  induction e as [t a x tl cs IH] using Element_forall_ind.
  cbn [ElementTree.iter ElementTree.preorder filter].
  unfold has_tag at 1. cbn [ElementTree.tag].
  assert (Hcs :
    (fix iter_all (l : list ElementTree.Element) : list ElementTree.Element :=
       match l with
       | [] => []
       | c :: l' => (ElementTree.iter name c ++ iter_all l')%list
       end) cs
    = filter (has_tag name)
        ((fix preorder_all (l : list ElementTree.Element)
            : list ElementTree.Element :=
            match l with
            | [] => []
            | c :: l' => (ElementTree.preorder c ++ preorder_all l')%list
            end) cs)).
  { induction IH as [ | c l Hc _ IHl ]; [ reflexivity | ].
    rewrite filter_app, Hc, IHl. reflexivity. }
  rewrite Hcs. destruct (t =? name); reflexivity.
Qed.

(** Appending the items one by one to an empty list rebuilds the list. *)
Lemma append_loop {A : Type} (l acc : list A) :
  fold_left (fun data_list data => (data_list ++ [data])%list) l acc
  = (acc ++ l)%list.
Proof.
  revert acc. induction l as [ | x l IH ]; intros acc; simpl.
  - now rewrite app_nil_r.
  - rewrite IH, <- app_assoc. reflexivity.
Qed.

(** ** Connecting *)

Section Connecting.

Import LgNetCastClient Wire.

Variable tv : list Request -> Request -> option Response.
Variable parse : string -> option ElementTree.Element.

(** What [_get_session_id] does with a token: one auth request, then the
    status check, the parse and the lookup of the [session] child. *)
Lemma get_session_id_with_token (w : World) :
  truthy (access_token (self w)) = true ->
  _get_session_id tv parse w
  = match _send_to_tv tv "auth"
            (Some (AUTH "AuthReq" (str_opt (access_token (self w))))) None w
    with
    | (Return response, w') =>
        if negb (status_code response =? codes.ok)%Z
        then (Raise (SessionIdError "Can not get session id from TV."), w')
        else match parse (text response) with
             | None => (Raise ParseError, w')
             | Some tree =>
                 match ElementTree.find "session" tree with
                 | None => (Raise AttributeError, w')
                 | Some session => (Return (ElementTree.text session), w')
                 end
             end
    | (Raise e, w') => (Raise e, w')
    end.
Proof.
  intros Htok. unfold _get_session_id, bind at 1, get_self.
  rewrite Htok. cbn [negb]. unfold bind at 1.
  destruct (_send_to_tv tv "auth" _ None w) as [[response | e] w'];
    [ | reflexivity ].
  destruct (negb (status_code response =? codes.ok)%Z); [ reflexivity | ].
  destruct (parse (text response)) as [tree | ]; [ | reflexivity ].
  destruct (ElementTree.find "session" tree); reflexivity.
Qed.

Lemma auth_send (w : World) :
  _send_to_tv tv "auth"
    (Some (AUTH "AuthReq" (str_opt (access_token (self w))))) None w
  = let r := auth_request (self w) in
    let out := (stdout w ++ [("POST " ++ str_opt (data r) ++ " to "
                               ++ req_url r)%string])%list in
    match tv (sent w) r with
    | Some resp =>
        (Return resp,
         mkWorld (self w) (sent w ++ [r])
                 (out ++ [("Received: " ++ text resp)%string])%list)
    | None => (Raise RequestException, mkWorld (self w) (sent w ++ [r])%list out)
    end.
Proof.
  unfold AUTH. rewrite send_post, message_path_auth. reflexivity.
Qed.

(** Entering the context with a token, case by case. *)
Lemma enter_with_token (w : World) :
  truthy (access_token (self w)) = true ->
  __enter__ tv parse w
  = let r := auth_request (self w) in
    match tv (sent w) r with
    | None => (Raise RequestException, after_failed_post w r)
    | Some resp =>
        if (status_code resp =? codes.ok)%Z then
          match parse (text resp) with
          | None => (Raise ParseError, after_post w r resp)
          | Some tree =>
              match ElementTree.find "session" tree with
              | None => (Raise AttributeError, after_post w r resp)
              | Some session =>
                  let w' := with_session (after_post w r resp)
                                         (ElementTree.text session) in
                  (Return (self w'), w')
              end
          end
        else (Raise (SessionIdError "Can not get session id from TV."),
              after_post w r resp)
    end.
Proof.
  intros Htok. unfold __enter__, bind at 1.
  rewrite (get_session_id_with_token w Htok), auth_send. cbv zeta.
  destruct (tv (sent w) (auth_request (self w))) as [resp | ];
    [ | reflexivity ].
  destruct (status_code resp =? codes.ok)%Z; cbn [negb]; [ | reflexivity ].
  destruct (parse (text resp)) as [tree | ]; [ | reflexivity ].
  destruct (ElementTree.find "session" tree); reflexivity.
Qed.

(** Entering the context without a token. *)
Lemma enter_without_token (w : World) :
  truthy (access_token (self w)) = false ->
  __enter__ tv parse w
  = let r := key_request (self w) in
    match tv (sent w) r with
    | None => (Raise RequestException, after_failed_post w r)
    | Some resp =>
        (Raise (AccessTokenError
                  "No access token specified to create session."),
         after_post w r resp)
    end.
Proof.
  intros Htok.
  unfold __enter__, bind at 1, _get_session_id, bind at 1, get_self.
  rewrite Htok. cbn [negb].
  unfold bind at 1, _display_pair_key, bind at 1, KEY.
  rewrite send_post, message_path_auth. cbv zeta.
  change (post_request (self w) "auth"
            (XML ++ "<auth><type>AuthKeyReq</type></auth>"))
    with (key_request (self w)).
  destruct (tv (sent w) (key_request (self w))); reflexivity.
Qed.

(** C1, as it holds: for every client with a non-empty pairing token, if
    the auth exchange returns the success status (200) and a body that
    parses to a tree whose root has a [session] child, the first of which
    has text [sid], then entering the client context returns the client
    with exactly [sid] stored as its session, after exactly one request,
    the auth request. *)
Theorem connect_yields_session (w : World) (resp : Response)
  (tree session : ElementTree.Element) (sid : string) :
  truthy (access_token (self w)) = true ->
  tv (sent w) (auth_request (self w)) = Some resp ->
  status_code resp = codes.ok ->
  parse (text resp) = Some tree ->
  ElementTree.find "session" tree = Some session ->
  ElementTree.text session = Some sid ->
  exists w',
    __enter__ tv parse w = (Return (self w'), w')
    /\ self w' = mkClient (url (self w)) (access_token (self w))
                          (protocol (self w)) (Some sid)
    /\ sent w' = (sent w ++ [auth_request (self w)])%list.
Proof.
  intros Htok Htv Hok Hparse Hfind Htext.
  rewrite (enter_with_token w Htok). cbv zeta.
  rewrite Htv, Hok, Z.eqb_refl, Hparse, Hfind, Htext.
  eexists. split; [ reflexivity | split; reflexivity ].
Qed.

(** C2, as it holds: for every client whose pairing token is empty or
    absent, entering the context issues exactly one request, the
    display-pair-key request posted to the auth path, which is no
    authentication request; when that call returns a response, whatever its
    status, connecting fails with AccessTokenError, and when the call itself
    raises, that transport error is what connecting fails with.  The client
    is left as it was. *)
Theorem connect_without_token (w : World) :
  truthy (access_token (self w)) = false ->
  let r := __enter__ tv parse w in
  (forall resp, tv (sent w) (key_request (self w)) = Some resp ->
     fst r = Raise (AccessTokenError
                      "No access token specified to create session."))
  /\ (tv (sent w) (key_request (self w)) = None ->
      fst r = Raise RequestException)
  /\ sent (snd r) = (sent w ++ [key_request (self w)])%list
  /\ self (snd r) = self w
  /\ req_url (key_request (self w)) = url (self w) ++ "auth"
  /\ (forall token,
        data (key_request (self w)) <> Some (AUTH "AuthReq" token)).
Proof.
  intros Htok r. subst r.
  rewrite (enter_without_token w Htok). cbv zeta.
  assert (Hkey : forall token,
            data (key_request (self w)) <> Some (AUTH "AuthReq" token))
    by (intros token H; discriminate H).
  destruct (tv (sent w) (key_request (self w))) as [resp | ];
    repeat split; intros; try reflexivity; try discriminate;
    eapply Hkey; eauto.
Qed.

(** C3: for every client with a non-empty token and no session held, if
    the auth exchange returns a status other than 200, entering the context
    fails with SessionIdError and the session is still unset; nothing of
    the client has changed. *)
Theorem connect_bad_status (w : World) (resp : Response) :
  truthy (access_token (self w)) = true ->
  _session (self w) = None ->
  tv (sent w) (auth_request (self w)) = Some resp ->
  status_code resp <> codes.ok ->
  let r := __enter__ tv parse w in
  fst r = Raise (SessionIdError "Can not get session id from TV.")
  /\ _session (self (snd r)) = None
  /\ self (snd r) = self w.
Proof.
  intros Htok Hnone Htv Hbad r. subst r.
  rewrite (enter_with_token w Htok). cbv zeta. rewrite Htv.
  apply Z.eqb_neq in Hbad. rewrite Hbad.
  repeat split. exact Hnone.
Qed.

End Connecting.

(** ** Commands and queries *)

Section Requests.

Import LgNetCastClient Wire.

Variable tv : list Request -> Request -> option Response.
Variable parse : string -> option ElementTree.Element.
Variable tostring : ElementTree.Element -> string.

(** [send_command], case by case: the response never reaches the result. *)
Lemma send_command_run (command : Z) (w : World) :
  send_command tv command w
  = let r := key_request_of (self w) command in
    match tv (sent w) r with
    | None => (Raise RequestException, after_failed_post w r)
    | Some resp => (Return None, after_post w r resp)
    end.
Proof.
  unfold send_command, bind at 1, get_self, bind at 1, COMMAND.
  rewrite send_post. cbv zeta.
  change (post_request (self w) (message_path (protocol (self w)) "command") _)
    with (key_request_of (self w) command).
  destruct (tv (sent w) (key_request_of (self w) command)); reflexivity.
Qed.

Lemma change_channel_run (channel : ElementTree.Element) (w : World) :
  change_channel tv tostring channel w
  = let r := channel_request_of (self w) (tostring channel) in
    match tv (sent w) r with
    | None => (Raise RequestException, after_failed_post w r)
    | Some resp => (Return None, after_post w r resp)
    end.
Proof.
  unfold change_channel, bind at 1, get_self, bind at 1, COMMAND.
  rewrite send_post. cbv zeta.
  change (post_request (self w) (message_path (protocol (self w)) "command") _)
    with (channel_request_of (self w) (tostring channel)).
  destruct (tv (sent w) (channel_request_of (self w) (tostring channel)));
    reflexivity.
Qed.

(** [query_data], case by case. *)
Lemma query_data_run (query : string) (w : World) :
  query_data tv parse query w
  = let r := data_request (self w) query in
    match tv (sent w) r with
    | None => (Raise RequestException, after_failed_get w r query)
    | Some resp =>
        if (status_code resp =? codes.ok)%Z then
          match parse (text resp) with
          | None => (Raise ParseError, after_get w r query resp)
          | Some tree =>
              (Return (Some (ElementTree.iter "data" tree)),
               after_get w r query resp)
          end
        else (Return None, after_get w r query resp)
    end.
Proof.
  unfold query_data, bind at 1. rewrite send_get. cbv zeta.
  destruct (tv (sent w) (data_request (self w) query)) as [resp | ];
    [ | reflexivity ].
  destruct (status_code resp =? codes.ok)%Z; [ | reflexivity ].
  destruct (parse (text resp)) as [tree | ]; [ | reflexivity ].
  rewrite append_loop. reflexivity.
Qed.

Lemma sent_after_post (message_type rest : string) (w : World) :
  sent (snd (_send_to_tv tv message_type (Some (XML ++ rest)) None w))
  = (sent w ++ [post_request (self w)
                  (message_path (protocol (self w)) message_type)
                  (XML ++ rest)])%list.
Proof.
  rewrite send_post. cbv zeta. destruct (tv (sent w) _); reflexivity.
Qed.

Lemma sent_after_command (command : Z) (w : World) :
  sent (snd (send_command tv command w))
  = (sent w ++ [key_request_of (self w) command])%list.
Proof.
  rewrite send_command_run. cbv zeta. destruct (tv (sent w) _); reflexivity.
Qed.

Lemma sent_after_channel (channel : ElementTree.Element) (w : World) :
  sent (snd (change_channel tv tostring channel w))
  = (sent w ++ [channel_request_of (self w) (tostring channel)])%list.
Proof.
  rewrite change_channel_run. cbv zeta. destruct (tv (sent w) _); reflexivity.
Qed.

Lemma sent_after_query (query : string) (w : World) :
  sent (snd (query_data tv parse query w))
  = (sent w ++ [data_request (self w) query])%list.
Proof.
  rewrite query_data_run. cbv zeta.
  destruct (tv (sent w) _) as [resp | ]; [ | reflexivity ].
  destruct (status_code resp =? codes.ok)%Z; [ | reflexivity ].
  destruct (parse (text resp)); reflexivity.
Qed.

(** The key-input envelope for a plain session text reads back as the
    tree it was written for. *)
Lemma key_message_reads_back (s : string) (command : Z) :
  plain_text s = true ->
  ElementTree.XML (key_message (Some s) command)
  = Some (key_envelope s command).
Proof.
  intros Hs. unfold key_message, key_envelope. cbn [str_opt].
  apply XML_command_envelope;
    [ exact Hs | reflexivity | exact (str_int_plain command) ].
Qed.

Lemma key_message_without_session (command : Z) :
  ElementTree.XML (key_message None command)
  = Some (key_envelope "None" command).
Proof.
  unfold key_message, key_envelope. cbn [str_opt].
  apply XML_command_envelope;
    [ reflexivity | reflexivity | exact (str_int_plain command) ].
Qed.

(** C4, as it holds: for every active session [s] that is plain text
    (non-empty, printable, free of the markup characters of XML) and every
    command code [c], [send_command] posts one message, and that message is
    an XML document whose root is [command], whose [session] child has text
    [s], whose [type] child has text [HandleKeyInput] and whose [value]
    child has the decimal string of [c] as text. *)
Theorem key_command_envelope (w : World) (s : string) (c : Z) :
  _session (self w) = Some s ->
  plain_text s = true ->
  let r := key_request_of (self w) c in
  sent (snd (send_command tv c w)) = (sent w ++ [r])%list
  /\ method r = POST
  /\ data r = Some (key_message (Some s) c)
  /\ ElementTree.XML (key_message (Some s) c) = Some (key_envelope s c)
  /\ ElementTree.tag (key_envelope s c) = "command"
  /\ child_text "session" (key_envelope s c) = Some s
  /\ child_text "type" (key_envelope s c) = Some LG_HANDLE_KEY_INPUT
  /\ child_text "value" (key_envelope s c) = Some (str_int c).
Proof.
  intros Hsession Hplain r. subst r.
  split; [ apply sent_after_command | ].
  split; [ reflexivity | ].
  split; [ unfold key_request_of; rewrite Hsession; reflexivity | ].
  split; [ exact (key_message_reads_back s c Hplain) | ].
  repeat split.
Qed.

(** C5: under the HDCP protocol every message type other than [auth] is
    rewritten to [dtv_wifirc], which is where such a message is posted, and
    [auth] stays [auth]; under ROAP a command is posted to [command]; under
    either protocol a query is a GET on [data?target=..&session=..] below
    the base URL, with the target also passed as a parameter. *)
Theorem dialect_paths :
  (forall message_type, message_type <> "auth" ->
     message_path LG_PROTOCOL.HDCP message_type = "dtv_wifirc")
  /\ (forall proto, message_path proto "auth" = "auth")
  /\ message_path LG_PROTOCOL.ROAP "command" = "command"
  /\ (forall w message_type rest,
        protocol (self w) = LG_PROTOCOL.HDCP -> message_type <> "auth" ->
        sent (snd (_send_to_tv tv message_type (Some (XML ++ rest)) None w))
        = (sent w ++ [post_request (self w) "dtv_wifirc" (XML ++ rest)])%list)
  /\ (forall w rest,
        sent (snd (_send_to_tv tv "auth" (Some (XML ++ rest)) None w))
        = (sent w ++ [post_request (self w) "auth" (XML ++ rest)])%list)
  /\ (forall w c,
        protocol (self w) = LG_PROTOCOL.HDCP ->
        sent (snd (send_command tv c w))
        = (sent w ++ [post_request (self w) "dtv_wifirc"
                        (key_message (_session (self w)) c)])%list)
  /\ (forall w c,
        protocol (self w) = LG_PROTOCOL.ROAP ->
        sent (snd (send_command tv c w))
        = (sent w ++ [post_request (self w) "command"
                        (key_message (_session (self w)) c)])%list)
  /\ (forall w query,
        sent (snd (query_data tv parse query w))
        = (sent w ++ [data_request (self w) query])%list
        /\ method (data_request (self w) query) = GET
        /\ req_url (data_request (self w) query)
           = url (self w) ++ "data?target=" ++ query ++ "&session="
               ++ str_opt (_session (self w))
        /\ params (data_request (self w) query) = Some [("target", query)]).
Proof.
  assert (Hlegacy : forall message_type, message_type <> "auth" ->
            message_path LG_PROTOCOL.HDCP message_type = "dtv_wifirc").
  { intros message_type Hne. unfold message_path.
    rewrite String.eqb_refl. apply String.eqb_neq in Hne.
    rewrite Hne. reflexivity. }
  split; [ exact Hlegacy | ].
  split; [ exact message_path_auth | ].
  split; [ reflexivity | ].
  split.
  { intros w message_type rest Hproto Hne.
    rewrite sent_after_post, Hproto, (Hlegacy _ Hne). reflexivity. }
  split.
  { intros w rest. rewrite sent_after_post, message_path_auth. reflexivity. }
  split.
  { intros w c Hproto. rewrite sent_after_command.
    unfold key_request_of. rewrite Hproto. reflexivity. }
  split.
  { intros w c Hproto. rewrite sent_after_command.
    unfold key_request_of. rewrite Hproto. reflexivity. }
  intros w query. split; [ apply sent_after_query | repeat split ].
Qed.

Lemma filter_none {A : Type} (f : A -> bool) (l : list A) :
  (forall x, In x l -> f x = false) -> filter f l = [].
Proof.
  induction l as [ | x l IH ]; intros H; simpl; [ reflexivity | ].
  rewrite (H x (or_introl eq_refl)). apply IH.
  intros y Hy. apply H. right. exact Hy.
Qed.

(** C6, as it holds: for every query answered with status 200 and a body
    that parses, [query_data] returns the [data] elements of the parsed
    tree, every one of them wherever it sits, in document order; when the
    tree has no [data] element the result is the empty list, not an
    error. *)
Theorem query_data_document_order (w : World) (query : string)
  (resp : Response) (tree : ElementTree.Element) :
  tv (sent w) (data_request (self w) query) = Some resp ->
  status_code resp = codes.ok ->
  parse (text resp) = Some tree ->
  fst (query_data tv parse query w)
  = Return (Some (filter (has_tag "data") (ElementTree.preorder tree)))
  /\ ((forall e, In e (ElementTree.preorder tree) ->
         ElementTree.tag e <> "data") ->
      fst (query_data tv parse query w) = Return (Some [])).
Proof.
  intros Htv Hok Hparse.
  assert (Hrun : fst (query_data tv parse query w)
                 = Return (Some (filter (has_tag "data")
                                        (ElementTree.preorder tree)))).
  { rewrite query_data_run. cbv zeta.
    rewrite Htv, Hok, Z.eqb_refl, Hparse, iter_is_filtered_preorder.
    reflexivity. }
  split; [ exact Hrun | ].
  intros Hnone. rewrite Hrun, filter_none; [ reflexivity | ].
  intros e He. unfold has_tag. apply String.eqb_neq. exact (Hnone e He).
Qed.

(** C7: for every query answered with a status other than 200,
    [query_data] returns [None] without raising, and the body is not
    parsed: whatever the parser would do with it, the call ends the same
    way, in the same world. *)
Theorem query_data_bad_status (w : World) (query : string) (resp : Response) :
  tv (sent w) (data_request (self w) query) = Some resp ->
  status_code resp <> codes.ok ->
  forall parser : string -> option ElementTree.Element,
    query_data tv parser query w
    = (Return None, after_get w (data_request (self w) query) query resp).
Proof.
  intros Htv Hbad parser.
  unfold query_data, bind at 1. rewrite send_get. cbv zeta.
  rewrite Htv. apply Z.eqb_neq in Hbad.
  cbn [text status_code after_get]. rewrite Hbad. reflexivity.
Qed.

(** C8, as it holds: when the transport answers a key-input command or a
    channel change, the call does not raise and does not look at the
    status: it returns [None], leaving the response behind, in a world that
    depends on the response's text only.  Of the three request operations
    only [query_data] branches on the status: [None] for a status other
    than 200, otherwise the parse and its outcome. *)
Theorem sends_ignore_status (w : World) (c : Z)
  (channel : ElementTree.Element) (query : string) (resp : Response) :
  (tv (sent w) (key_request_of (self w) c) = Some resp ->
   send_command tv c w
   = (Return None, after_post w (key_request_of (self w) c) resp))
  /\ (tv (sent w) (channel_request_of (self w) (tostring channel)) = Some resp ->
      change_channel tv tostring channel w
      = (Return None,
         after_post w (channel_request_of (self w) (tostring channel)) resp))
  /\ (tv (sent w) (data_request (self w) query) = Some resp ->
      (status_code resp <> codes.ok ->
       fst (query_data tv parse query w) = Return None)
      /\ (status_code resp = codes.ok -> parse (text resp) = None ->
          fst (query_data tv parse query w) = Raise ParseError)
      /\ (status_code resp = codes.ok ->
          forall tree, parse (text resp) = Some tree ->
          fst (query_data tv parse query w)
          = Return (Some (ElementTree.iter "data" tree)))).
Proof.
  split; [ | split ].
  - intros Htv. rewrite send_command_run. cbv zeta. rewrite Htv. reflexivity.
  - intros Htv. rewrite change_channel_run. cbv zeta. rewrite Htv. reflexivity.
  - intros Htv. rewrite query_data_run. cbv zeta. rewrite Htv.
    split; [ | split ].
    + intros Hbad. apply Z.eqb_neq in Hbad. rewrite Hbad. reflexivity.
    + intros Hok Hparse. rewrite Hok, Z.eqb_refl, Hparse. reflexivity.
    + intros Hok tree Hparse. rewrite Hok, Z.eqb_refl, Hparse. reflexivity.
Qed.

(** C9, as it holds: after leaving the context the session is unset, and a
    command issued then is not rejected: [send_command] posts the envelope
    with the text [None] in its [session] child, and returns [None] when
    the transport answers; only a failing transport makes the call raise. *)
Theorem command_after_exit (w : World) (c : Z) :
  let w1 := snd (__exit__ w) in
  let r := key_request_of (self w1) c in
  fst (__exit__ w) = Return tt
  /\ _session (self w1) = None
  /\ sent w1 = sent w
  /\ send_command tv c w1
     = match tv (sent w) r with
       | None => (Raise RequestException, after_failed_post w1 r)
       | Some resp => (Return None, after_post w1 r resp)
       end
  /\ data r = Some (key_message None c)
  /\ ElementTree.XML (key_message None c) = Some (key_envelope "None" c).
Proof.
  intros w1 r. subst w1 r.
  split; [ reflexivity | ].
  split; [ reflexivity | ].
  split; [ reflexivity | ].
  split; [ rewrite send_command_run; reflexivity | ].
  split; [ reflexivity | exact (key_message_without_session c) ].
Qed.

(** C10: for every client that holds no session, [send_command] still
    posts its envelope, whose [session] child has the text [None];
    [query_data] still makes its GET, with [session=None] in the URL; and
    [change_channel] still posts an envelope written for the session
    [None].  None of them checks for a session first. *)
Theorem no_session_still_sends (w : World) (c : Z) (query : string)
  (channel : ElementTree.Element) :
  _session (self w) = None ->
  (sent (snd (send_command tv c w))
   = (sent w ++ [key_request_of (self w) c])%list
   /\ data (key_request_of (self w) c) = Some (key_message None c)
   /\ ElementTree.XML (key_message None c) = Some (key_envelope "None" c)
   /\ child_text "session" (key_envelope "None" c) = Some "None")
  /\ (sent (snd (query_data tv parse query w))
      = (sent w ++ [data_request (self w) query])%list
      /\ method (data_request (self w) query) = GET
      /\ req_url (data_request (self w) query)
         = url (self w) ++ "data?target=" ++ query ++ "&session=None")
  /\ (sent (snd (change_channel tv tostring channel w))
      = (sent w ++ [channel_request_of (self w) (tostring channel)])%list
      /\ data (channel_request_of (self w) (tostring channel))
         = Some (COMMAND "None" LG_HANDLE_CHANNEL_CHANGE (tostring channel))).
Proof.
  intros Hnone. split; [ | split ].
  - split; [ apply sent_after_command | ].
    split; [ unfold key_request_of; rewrite Hnone; reflexivity | ].
    split; [ exact (key_message_without_session c) | reflexivity ].
  - split; [ apply sent_after_query | ].
    split; [ reflexivity | ].
    unfold data_request. rewrite Hnone. reflexivity.
  - split; [ apply sent_after_channel | ].
    unfold channel_request_of. rewrite Hnone. reflexivity.
Qed.

End Requests.

(** ** The theorems at work, and where the stronger readings fail *)

Section Instances.

Import LgNetCastClient Wire Scenario.

Lemma connect_yields_session_witness :
  (truthy (access_token (self paired)) = true
   /\ tv_answering granted (sent paired) (auth_request (self paired))
      = Some granted
   /\ status_code granted = codes.ok
   /\ ElementTree.XML (text granted) = Some granted_tree
   /\ ElementTree.find "session" granted_tree
      = Some (leaf "session" "1234567890"))
  /\ exists w',
       __enter__ (tv_answering granted) ElementTree.XML paired
       = (Return (self w'), w')
       /\ self w' = mkClient (url (self paired)) (access_token (self paired))
                             (protocol (self paired)) (Some "1234567890")
       /\ sent w' = (sent paired ++ [auth_request (self paired)])%list.
Proof.
  split.
  - repeat split; vm_compute; reflexivity.
  - apply (connect_yields_session (tv_answering granted) ElementTree.XML
             paired granted granted_tree (leaf "session" "1234567890")
             "1234567890");
      vm_compute; reflexivity.
Defined.

(** C1 as stated fails: with a token, status 200 and a body that is XML
    and contains a [session] element with its text, but below a child of
    the root, connecting raises and stores nothing. *)
Lemma connect_nested_session_fails :
  truthy (access_token (self paired)) = true
  /\ tv_answering nested (sent paired) (auth_request (self paired))
     = Some nested
  /\ status_code nested = codes.ok
  /\ ElementTree.XML (text nested) = Some nested_tree
  /\ In (leaf "session" "1234567890") (ElementTree.preorder nested_tree)
  /\ ElementTree.tag (leaf "session" "1234567890") = "session"
  /\ ElementTree.text (leaf "session" "1234567890") = Some "1234567890"
  /\ fst (__enter__ (tv_answering nested) ElementTree.XML paired)
     = Raise AttributeError
  /\ _session (self (snd (__enter__ (tv_answering nested) ElementTree.XML
                            paired)))
     = None.
Proof.
  repeat split; try (vm_compute; reflexivity).
  simpl. tauto.
Qed.

Lemma connect_without_token_witness :
  truthy (access_token (self unpaired)) = false
  /\ fst (__enter__ (tv_answering failing) ElementTree.XML unpaired)
     = Raise (AccessTokenError "No access token specified to create session.")
  /\ sent (snd (__enter__ (tv_answering failing) ElementTree.XML unpaired))
     = [key_request (self unpaired)].
Proof.
  assert (Htok : truthy (access_token (self unpaired)) = false)
    by reflexivity.
  pose proof (connect_without_token (tv_answering failing) ElementTree.XML
                unpaired Htok) as H.
  cbv zeta in H. destruct H as [Hanswered [_ [Hsent _]]].
  split; [ exact Htok | ].
  split; [ exact (Hanswered failing eq_refl) | exact Hsent ].
Defined.

(** C2 as stated fails: without a token and with a TV that cannot be
    reached, connecting fails with the transport's error, not with
    AccessTokenError. *)
Lemma connect_without_token_unreachable :
  truthy (access_token (self unpaired)) = false
  /\ fst (__enter__ tv_unreachable ElementTree.XML unpaired)
     = Raise RequestException
  /\ fst (__enter__ tv_unreachable ElementTree.XML unpaired)
     <> Raise (AccessTokenError "No access token specified to create session.").
Proof.
  repeat split; try (vm_compute; reflexivity).
  vm_compute. discriminate.
Qed.

Lemma connect_bad_status_witness :
  (truthy (access_token (self paired)) = true
   /\ _session (self paired) = None
   /\ tv_answering refused (sent paired) (auth_request (self paired))
      = Some refused
   /\ status_code refused <> codes.ok)
  /\ fst (__enter__ (tv_answering refused) ElementTree.XML paired)
     = Raise (SessionIdError "Can not get session id from TV.")
  /\ _session (self (snd (__enter__ (tv_answering refused) ElementTree.XML
                            paired)))
     = None
  /\ self (snd (__enter__ (tv_answering refused) ElementTree.XML paired))
     = self paired.
Proof.
  assert (Hbad : status_code refused <> codes.ok)
    by (vm_compute; discriminate).
  split.
  - repeat split; try reflexivity. exact Hbad.
  - exact (connect_bad_status (tv_answering refused) ElementTree.XML paired
             refused eq_refl eq_refl eq_refl Hbad).
Defined.

Lemma key_command_envelope_witness :
  (_session (self connected) = Some "1234567890"
   /\ plain_text "1234567890" = true)
  /\ sent (snd (send_command (tv_answering failing) LG_COMMAND.VOLUME_UP
                  connected))
     = (sent connected
          ++ [key_request_of (self connected) LG_COMMAND.VOLUME_UP])%list
  /\ ElementTree.XML (key_message (Some "1234567890") LG_COMMAND.VOLUME_UP)
     = Some (key_envelope "1234567890" LG_COMMAND.VOLUME_UP)
  /\ child_text "session" (key_envelope "1234567890" LG_COMMAND.VOLUME_UP)
     = Some "1234567890"
  /\ child_text "value" (key_envelope "1234567890" LG_COMMAND.VOLUME_UP)
     = Some "24".
Proof.
  assert (Hs : _session (self connected) = Some "1234567890")
    by (vm_compute; reflexivity).
  assert (Hp : plain_text "1234567890" = true) by (vm_compute; reflexivity).
  pose proof (key_command_envelope (tv_answering failing) connected
                "1234567890" LG_COMMAND.VOLUME_UP Hs Hp) as H.
  cbv zeta in H.
  destruct H as [Hsent [_ [_ [Hread [_ [Hsession [_ Hvalue]]]]]]].
  split; [ split; [ exact Hs | exact Hp ] | ].
  split; [ exact Hsent | ].
  split; [ exact Hread | ].
  split; [ exact Hsession | exact Hvalue ].
Defined.

(** C4 as stated fails: the session [&amp;], taken from a TV's answer, is
    written into the envelope as it is, and the envelope's [session] child
    then has the text [&]. *)
Lemma key_command_markup_session :
  _session (self connected_escaped) = Some "&amp;"
  /\ data (key_request_of (self connected_escaped) LG_COMMAND.OK)
     = Some (key_message (Some "&amp;") LG_COMMAND.OK)
  /\ ElementTree.XML (key_message (Some "&amp;") LG_COMMAND.OK)
     = Some (key_envelope "&" LG_COMMAND.OK)
  /\ child_text "session" (key_envelope "&" LG_COMMAND.OK) = Some "&"
  /\ child_text "session" (key_envelope "&" LG_COMMAND.OK) <> Some "&amp;".
Proof.
  repeat split; try (vm_compute; reflexivity).
  vm_compute. discriminate.
Qed.

Lemma dialect_paths_witness :
  ("command" <> "auth" /\ protocol (self legacy) = LG_PROTOCOL.HDCP
   /\ protocol (self paired) = LG_PROTOCOL.ROAP)
  /\ message_path LG_PROTOCOL.HDCP "command" = "dtv_wifirc"
  /\ message_path LG_PROTOCOL.HDCP "data" = "dtv_wifirc"
  /\ sent (snd (send_command (tv_answering failing) LG_COMMAND.MUTE_TOGGLE
                  legacy))
     = [post_request (self legacy) "dtv_wifirc"
          (key_message None LG_COMMAND.MUTE_TOGGLE)]
  /\ sent (snd (send_command (tv_answering failing) LG_COMMAND.MUTE_TOGGLE
                  paired))
     = [post_request (self paired) "command"
          (key_message None LG_COMMAND.MUTE_TOGGLE)]
  /\ req_url (data_request (self legacy) LG_QUERY.VOLUME_INFO)
     = "http://192.168.1.10:8080/hdcp/api/data?target=volume_info&session=None".
Proof.
  assert (Hne : "command" <> "auth") by discriminate.
  assert (Hne' : "data" <> "auth") by discriminate.
  destruct (dialect_paths (tv_answering failing) ElementTree.XML)
    as [Hpath [_ [_ [_ [_ [Hlegacy [Hdefault Hquery]]]]]]].
  split; [ repeat split; exact Hne | ].
  split; [ exact (Hpath "command" Hne) | ].
  split; [ exact (Hpath "data" Hne') | ].
  split; [ exact (Hlegacy legacy LG_COMMAND.MUTE_TOGGLE eq_refl) | ].
  split; [ exact (Hdefault paired LG_COMMAND.MUTE_TOGGLE eq_refl) | ].
  destruct (Hquery legacy LG_QUERY.VOLUME_INFO) as [_ [_ [Hurl _]]].
  rewrite Hurl. vm_compute. reflexivity.
Defined.

Lemma query_data_document_order_witness :
  (tv_answering three (sent connected)
     (data_request (self connected) LG_QUERY.CHANNEL_LIST) = Some three
   /\ status_code three = codes.ok
   /\ ElementTree.XML (text three) = Some three_tree
   /\ ElementTree.XML (text empty) = Some empty_tree
   /\ (forall e, In e (ElementTree.preorder empty_tree) ->
         ElementTree.tag e <> "data"))
  /\ fst (query_data (tv_answering three) ElementTree.XML
            LG_QUERY.CHANNEL_LIST connected)
     = Return (Some [data_a; data_b; data_c])
  /\ fst (query_data (tv_answering empty) ElementTree.XML
            LG_QUERY.CHANNEL_LIST connected)
     = Return (Some []).
Proof.
  assert (Hthree : ElementTree.XML (text three) = Some three_tree)
    by (vm_compute; reflexivity).
  assert (Hempty : ElementTree.XML (text empty) = Some empty_tree)
    by (vm_compute; reflexivity).
  assert (Hnone : forall e, In e (ElementTree.preorder empty_tree) ->
                    ElementTree.tag e <> "data").
  { intros e He. simpl in He.
    destruct He as [ <- | [ <- | [] ] ]; discriminate. }
  split; [ repeat split; try reflexivity; assumption | ].
  split.
  - rewrite (proj1 (query_data_document_order (tv_answering three)
                      ElementTree.XML connected LG_QUERY.CHANNEL_LIST three
                      three_tree eq_refl eq_refl Hthree)).
    reflexivity.
  - exact (proj2 (query_data_document_order (tv_answering empty)
                    ElementTree.XML connected LG_QUERY.CHANNEL_LIST empty
                    empty_tree eq_refl eq_refl Hempty) Hnone).
Defined.

(** C6 as stated fails: the TV answers a query with status 201, a success
    status, and a body with three [data] elements at three depths; the
    call returns [None], not the three elements. *)
Lemma query_data_other_success_status :
  tv_answering created (sent connected)
    (data_request (self connected) LG_QUERY.CHANNEL_LIST) = Some created
  /\ status_code created = 201%Z
  /\ (200 <= status_code created < 300)%Z
  /\ ElementTree.XML (text created) = Some three_tree
  /\ filter (has_tag "data") (ElementTree.preorder three_tree)
     = [data_a; data_b; data_c]
  /\ fst (query_data (tv_answering created) ElementTree.XML
            LG_QUERY.CHANNEL_LIST connected)
     = Return None
  /\ fst (query_data (tv_answering created) ElementTree.XML
            LG_QUERY.CHANNEL_LIST connected)
     <> Return (Some [data_a; data_b; data_c]).
Proof.
  repeat split; try (vm_compute; reflexivity); try (vm_compute; discriminate).
Qed.

Lemma query_data_bad_status_witness :
  (tv_answering failing (sent connected)
     (data_request (self connected) LG_QUERY.CUR_CHANNEL) = Some failing
   /\ status_code failing <> codes.ok)
  /\ query_data (tv_answering failing) ElementTree.XML LG_QUERY.CUR_CHANNEL
       connected
     = (Return None,
        after_get connected
          (data_request (self connected) LG_QUERY.CUR_CHANNEL)
          LG_QUERY.CUR_CHANNEL failing)
  /\ query_data (tv_answering failing) (fun _ => None) LG_QUERY.CUR_CHANNEL
       connected
     = (Return None,
        after_get connected
          (data_request (self connected) LG_QUERY.CUR_CHANNEL)
          LG_QUERY.CUR_CHANNEL failing).
Proof.
  assert (Hbad : status_code failing <> codes.ok)
    by (vm_compute; discriminate).
  split; [ split; [ reflexivity | exact Hbad ] | ].
  split;
    exact (query_data_bad_status (tv_answering failing) connected
             LG_QUERY.CUR_CHANNEL failing eq_refl Hbad _).
Defined.

Lemma sends_ignore_status_witness :
  (tv_answering failing (sent connected)
     (key_request_of (self connected) LG_COMMAND.POWER) = Some failing
   /\ status_code failing <> codes.ok)
  /\ send_command (tv_answering failing) LG_COMMAND.POWER connected
     = (Return None,
        after_post connected
          (key_request_of (self connected) LG_COMMAND.POWER) failing)
  /\ change_channel (tv_answering failing) ElementTree.tostring channel
       connected
     = (Return None,
        after_post connected
          (channel_request_of (self connected)
             (ElementTree.tostring channel)) failing)
  /\ fst (query_data (tv_answering failing) ElementTree.XML
            LG_QUERY.CUR_CHANNEL connected)
     = Return None.
Proof.
  assert (Hbad : status_code failing <> codes.ok)
    by (vm_compute; discriminate).
  destruct (sends_ignore_status (tv_answering failing) ElementTree.XML
              ElementTree.tostring connected LG_COMMAND.POWER channel
              LG_QUERY.CUR_CHANNEL failing)
    as [Hcommand [Hchannel Hquery]].
  split; [ split; [ reflexivity | exact Hbad ] | ].
  split; [ exact (Hcommand eq_refl) | ].
  split; [ exact (Hchannel eq_refl) | ].
  exact (proj1 (Hquery eq_refl) Hbad).
Defined.

(** C8 as stated fails: the TV answers a command and a channel change with
    status 500; neither call raises, and neither returns that response. *)
Lemma sends_return_none :
  tv_answering failing (sent connected)
    (key_request_of (self connected) LG_COMMAND.POWER) = Some failing
  /\ fst (send_command (tv_answering failing) LG_COMMAND.POWER connected)
     = Return None
  /\ fst (send_command (tv_answering failing) LG_COMMAND.POWER connected)
     <> Return (Some failing)
  /\ fst (change_channel (tv_answering failing) ElementTree.tostring channel
            connected)
     = Return None
  /\ fst (change_channel (tv_answering failing) ElementTree.tostring channel
            connected)
     <> Return (Some failing).
Proof.
  repeat split; try (vm_compute; reflexivity); vm_compute; discriminate.
Qed.

(** C9 as stated fails: connect, leave the context, send a command.  The
    command is not rejected: the call returns, and a second request has
    gone out, its envelope written for the session [None]. *)
Lemma command_after_exit_is_sent :
  _session (self connected) = Some "1234567890"
  /\ _session (self disconnected) = None
  /\ fst (send_command (tv_answering granted) LG_COMMAND.OK disconnected)
     = Return None
  /\ sent (snd (send_command (tv_answering granted) LG_COMMAND.OK
                  disconnected))
     = [auth_request (self paired);
        post_request (self paired) "command"
          (XML ++ "<command><session>None</session>"
               ++ "<type>HandleKeyInput</type><value>20</value></command>")].
Proof.
  repeat split; vm_compute; reflexivity.
Qed.

Lemma no_session_still_sends_witness :
  _session (self paired) = None
  /\ sent (snd (send_command tv_unreachable LG_COMMAND.HOME_MENU paired))
     = [key_request_of (self paired) LG_COMMAND.HOME_MENU]
  /\ data (key_request_of (self paired) LG_COMMAND.HOME_MENU)
     = Some (XML ++ "<command><session>None</session>"
                 ++ "<type>HandleKeyInput</type><value>21</value></command>")
  /\ sent (snd (query_data tv_unreachable ElementTree.XML LG_QUERY.IS_3D
                  paired))
     = [data_request (self paired) LG_QUERY.IS_3D]
  /\ req_url (data_request (self paired) LG_QUERY.IS_3D)
     = "http://192.168.1.10:8080/roap/api/data?target=is_3d&session=None".
Proof.
  assert (Hnone : _session (self paired) = None) by reflexivity.
  destruct (no_session_still_sends tv_unreachable ElementTree.XML
              ElementTree.tostring paired LG_COMMAND.HOME_MENU LG_QUERY.IS_3D
              channel Hnone)
    as [[Hsent [Hdata _]] [[Hquery [_ Hurl]] _]].
  split; [ exact Hnone | ].
  split; [ exact Hsent | ].
  split; [ rewrite Hdata; vm_compute; reflexivity | ].
  split; [ exact Hquery | ].
  rewrite Hurl. vm_compute. reflexivity.
Defined.

End Instances.

(** * Further properties of the client *)

(** ** Entering and leaving *)

Section Lifecycle.

Import LgNetCastClient Wire.

Variable tv : list Request -> Request -> option Response.
Variable parse : string -> option ElementTree.Element.

(** Entering the context, with or without a token, makes one request and
    changes at most the session. *)
Lemma enter_effect (w : World) :
  exists r v,
    sent (snd (__enter__ tv parse w)) = (sent w ++ [r])%list
    /\ from_client (self w) r
    /\ self (snd (__enter__ tv parse w))
       = mkClient (url (self w)) (access_token (self w))
                  (protocol (self w)) v
    /\ (forall e, fst (__enter__ tv parse w) = Raise e ->
          v = _session (self w)).
Proof.
  assert (Hself : forall c, c = mkClient (url c) (access_token c)
                                         (protocol c) (_session c))
    by (intros [? ? ? ?]; reflexivity).
  assert (Hauth : from_client (self w) (auth_request (self w)))
    by (split; [ | split; [ | exists "auth" ] ]; reflexivity).
  assert (Hkey : from_client (self w) (key_request (self w)))
    by (split; [ | split; [ | exists "auth" ] ]; reflexivity).
  destruct (truthy (access_token (self w))) eqn:Htok.
  - rewrite (enter_with_token tv parse w Htok). cbv zeta.
    exists (auth_request (self w)).
    destruct (tv (sent w) (auth_request (self w))) as [resp | ];
      [ destruct (status_code resp =? codes.ok)%Z;
        [ destruct (parse (text resp)) as [tree | ];
          [ destruct (ElementTree.find "session" tree) as [session | ] | ]
        | ]
      | ];
      [ exists (ElementTree.text session)
      | exists (_session (self w)) .. ];
      (split; [ reflexivity | ]);
      (split; [ exact Hauth | ]);
      (split; [ first [ reflexivity | apply Hself ] | ]);
      intros e He; first [ discriminate He | reflexivity ].
  - rewrite (enter_without_token tv parse w Htok). cbv zeta.
    exists (key_request (self w)), (_session (self w)).
    destruct (tv (sent w) (key_request (self w)));
      (split; [ reflexivity | ]);
      (split; [ exact Hkey | ]);
      (split; [ apply Hself | ]);
      intros e He; reflexivity.
Qed.

(** X1: whenever entering the context raises, whatever the exception (no
    token, transport error, bad status, unparsable body, no [session]
    child), the client object is exactly as it was before the call; a
    session held before is still held. *)
Theorem enter_failure_keeps_client (w : World) (e : Exn) :
  fst (__enter__ tv parse w) = Raise e ->
  self (snd (__enter__ tv parse w)) = self w.
Proof.
  intros Hraise.
  destruct (enter_effect w) as [r [v [_ [_ [Hself Hv]]]]].
  rewrite Hself, (Hv e Hraise). destruct (self w); reflexivity.
Qed.

(** X2: entering the context returns normally only if the token is
    non-empty, the one request made is the auth request, the TV answered it
    with status 200, the body parsed, and the root has a [session] child;
    the client returned is the old one with that child's text as session. *)
Theorem enter_return_inversion (w : World) (c : Client) :
  fst (__enter__ tv parse w) = Return c ->
  truthy (access_token (self w)) = true
  /\ exists resp tree session,
       tv (sent w) (auth_request (self w)) = Some resp
       /\ status_code resp = codes.ok
       /\ parse (text resp) = Some tree
       /\ ElementTree.find "session" tree = Some session
       /\ c = mkClient (url (self w)) (access_token (self w))
                       (protocol (self w)) (ElementTree.text session)
       /\ self (snd (__enter__ tv parse w)) = c
       /\ sent (snd (__enter__ tv parse w))
          = (sent w ++ [auth_request (self w)])%list.
Proof.
  destruct (truthy (access_token (self w))) eqn:Htok.
  - rewrite (enter_with_token tv parse w Htok). cbv zeta.
    destruct (tv (sent w) (auth_request (self w))) as [resp | ] eqn:Htv;
      [ | discriminate ].
    destruct (status_code resp =? codes.ok)%Z eqn:Hok; [ | discriminate ].
    destruct (parse (text resp)) as [tree | ] eqn:Hparse; [ | discriminate ].
    destruct (ElementTree.find "session" tree) as [session | ] eqn:Hfind;
      [ | discriminate ].
    intros Hret. injection Hret as <-.
    split; [ reflexivity | ].
    exists resp, tree, session.
    apply Z.eqb_eq in Hok. repeat split; try reflexivity; assumption.
  - rewrite (enter_without_token tv parse w Htok). cbv zeta.
    destruct (tv (sent w) (key_request (self w))); discriminate.
Qed.

(** X3: leaving the context never fails, reaches neither the network nor
    the output, clears the session and nothing else, and is idempotent, on
    every client, connected or not; and entering and then leaving a client
    that held no session gives back the client object as it was, whether
    entering succeeded or raised. *)
Theorem exit_restores_client (w : World) :
  fst (__exit__ w) = Return tt
  /\ sent (snd (__exit__ w)) = sent w
  /\ stdout (snd (__exit__ w)) = stdout w
  /\ self (snd (__exit__ w))
     = mkClient (url (self w)) (access_token (self w)) (protocol (self w))
                None
  /\ snd (__exit__ (snd (__exit__ w))) = snd (__exit__ w)
  /\ (_session (self w) = None ->
      self (snd (__exit__ (snd (__enter__ tv parse w)))) = self w).
Proof.
  split; [ reflexivity | ].
  split; [ reflexivity | ].
  split; [ reflexivity | ].
  split; [ reflexivity | ].
  split; [ reflexivity | ].
  intros Hnone.
  destruct (enter_effect w) as [r [v [_ [_ [Hself _]]]]].
  unfold __exit__, set_session. cbn [snd self].
  rewrite Hself. cbn [url access_token protocol].
  rewrite <- Hnone. destruct (self w); reflexivity.
Qed.

End Lifecycle.

(** ** What every call keeps *)

Section Invariants.

Import LgNetCastClient Wire.

Variable tv : list Request -> Request -> option Response.
Variable parse : string -> option ElementTree.Element.
Variable tostring : ElementTree.Element -> string.

Lemma self_after_command (command : Z) (w : World) :
  self (snd (send_command tv command w)) = self w.
Proof.
  rewrite send_command_run. cbv zeta. destruct (tv (sent w) _); reflexivity.
Qed.

Lemma self_after_channel (channel : ElementTree.Element) (w : World) :
  self (snd (change_channel tv tostring channel w)) = self w.
Proof.
  rewrite change_channel_run. cbv zeta. destruct (tv (sent w) _); reflexivity.
Qed.

Lemma self_after_query (query : string) (w : World) :
  self (snd (query_data tv parse query w)) = self w.
Proof.
  rewrite query_data_run. cbv zeta.
  destruct (tv (sent w) _) as [resp | ]; [ | reflexivity ].
  destruct (status_code resp =? codes.ok)%Z; [ | reflexivity ].
  destruct (parse (text resp)); reflexivity.
Qed.

Lemma from_client_post (c : Client) (path message : string) :
  from_client c (post_request c path message).
Proof.
  split; [ | split; [ | exists path ] ]; reflexivity.
Qed.

Lemma from_client_same_url (c c' : Client) (r : Request) :
  url c' = url c -> from_client c r -> from_client c' r.
Proof.
  intros Hurl [Hh [Ht [path Hpath]]].
  split; [ exact Hh | split; [ exact Ht | ] ].
  exists path. rewrite Hurl. exact Hpath.
Qed.

(** One call: the endpoint attributes stay, and the requests logged grow by
    the one request of the call, or by none when leaving the context. *)
Lemma step_effect (o : Op) (w : World) :
  url (self (step tv parse tostring o w)) = url (self w)
  /\ access_token (self (step tv parse tostring o w)) = access_token (self w)
  /\ protocol (self (step tv parse tostring o w)) = protocol (self w)
  /\ exists rs,
       sent (step tv parse tostring o w) = (sent w ++ rs)%list
       /\ Forall (from_client (self w)) rs
       /\ List.length rs = if makes_request o then 1 else 0.
Proof.
  destruct o as [ | | c | ch | q ]; cbn [step makes_request].
  - destruct (enter_effect tv parse w) as [r [v [Hsent [Hfrom [Hself _]]]]].
    rewrite Hself. cbn [url access_token protocol].
    split; [ reflexivity | split; [ reflexivity | split; [ reflexivity | ] ] ].
    exists [r]. split; [ exact Hsent | split; [ | reflexivity ] ].
    constructor; [ exact Hfrom | constructor ].
  - cbn.
    split; [ reflexivity | split; [ reflexivity | split; [ reflexivity | ] ] ].
    exists []. rewrite app_nil_r.
    split; [ reflexivity | split; [ constructor | reflexivity ] ].
  - rewrite self_after_command, sent_after_command.
    split; [ reflexivity | split; [ reflexivity | split; [ reflexivity | ] ] ].
    exists [key_request_of (self w) c].
    split; [ reflexivity | split; [ | reflexivity ] ].
    constructor; [ apply from_client_post | constructor ].
  - rewrite self_after_channel, sent_after_channel.
    split; [ reflexivity | split; [ reflexivity | split; [ reflexivity | ] ] ].
    exists [channel_request_of (self w) (tostring ch)].
    split; [ reflexivity | split; [ | reflexivity ] ].
    constructor; [ apply from_client_post | constructor ].
  - rewrite self_after_query, sent_after_query.
    split; [ reflexivity | split; [ reflexivity | split; [ reflexivity | ] ] ].
    exists [data_request (self w) q].
    split; [ reflexivity | split; [ | reflexivity ] ].
    constructor; [ | constructor ].
    split; [ reflexivity | split; [ reflexivity | ] ].
    eexists. reflexivity.
Qed.

Lemma run_effect (ops : list Op) (w : World) :
  url (self (run tv parse tostring ops w)) = url (self w)
  /\ access_token (self (run tv parse tostring ops w)) = access_token (self w)
  /\ protocol (self (run tv parse tostring ops w)) = protocol (self w)
  /\ exists rs,
       sent (run tv parse tostring ops w) = (sent w ++ rs)%list
       /\ Forall (from_client (self w)) rs
       /\ List.length rs = List.length (filter makes_request ops).
Proof.
  revert w. induction ops as [ | o ops IH ]; intros w.
  - cbn.
    split; [ reflexivity | split; [ reflexivity | split; [ reflexivity | ] ] ].
    exists []. rewrite app_nil_r.
    split; [ reflexivity | split; [ constructor | reflexivity ] ].
  - change (run tv parse tostring (o :: ops) w)
      with (run tv parse tostring ops (step tv parse tostring o w)).
    destruct (step_effect o w) as [Hu [Ha [Hp [rs [Hs [Hf Hl]]]]]].
    destruct (IH (step tv parse tostring o w))
      as [Hu' [Ha' [Hp' [rs' [Hs' [Hf' Hl']]]]]].
    split; [ congruence | ].
    split; [ congruence | ].
    split; [ congruence | ].
    exists (rs ++ rs')%list. split; [ | split ].
    + rewrite Hs', Hs, app_assoc. reflexivity.
    + apply Forall_app. split; [ exact Hf | ].
      eapply Forall_impl; [ | exact Hf' ].
      intros r Hr. exact (from_client_same_url _ _ r (eq_sym Hu) Hr).
    + rewrite length_app, Hl, Hl'. cbn [filter].
      destruct (makes_request o); reflexivity.
Qed.

(** X4: take a client just constructed for a host, a token and a protocol,
    and call its methods in any order and any number of times, going on
    after calls that raise.  The base URL stays
    [http://host:8080/protocol/api/], token and protocol stay as given,
    every request made carries the atom+xml content type, the timeout of 3
    and a URL below the base URL, and there is exactly one request per
    call other than leaving the context. *)
Theorem client_requests_invariant (ops : list Op) (host : string)
  (token : option string) (proto : string) :
  let w := run tv parse tostring ops (fresh host token proto) in
  url (self w) = "http://" ++ host ++ ":8080/" ++ proto ++ "/api/"
  /\ access_token (self w) = token
  /\ protocol (self w) = proto
  /\ Forall (from_client (__init__ host token proto)) (sent w)
  /\ List.length (sent w) = List.length (filter makes_request ops).
Proof.
  intros w. subst w.
  destruct (run_effect ops (fresh host token proto))
    as [Hu [Ha [Hp [rs [Hs [Hf Hl]]]]]].
  split; [ exact Hu | ].
  split; [ exact Ha | ].
  split; [ exact Hp | ].
  rewrite Hs. cbn [fresh sent app]. split; [ exact Hf | exact Hl ].
Qed.

(** X5: a command, a channel change and a query leave the client object
    exactly as it was, whether they return or raise: none of them touches
    the session, and a query that returns [None] or raises has still made
    its request. *)
Theorem requests_keep_client (w : World) (c : Z)
  (channel : ElementTree.Element) (query : string) :
  self (snd (send_command tv c w)) = self w
  /\ self (snd (change_channel tv tostring channel w)) = self w
  /\ self (snd (query_data tv parse query w)) = self w
  /\ sent (snd (query_data tv parse query w))
     = (sent w ++ [data_request (self w) query])%list.
Proof.
  split; [ apply self_after_command | ].
  split; [ apply self_after_channel | ].
  split; [ apply self_after_query | apply sent_after_query ].
Qed.

(** X6: [_send_to_tv] called with no message, or an empty one, does not
    post.  Without a payload it raises TypeError, and with a payload that
    has no [target] it raises KeyError, in both cases before anything is
    sent or printed; the message type plays no part; and with a target the
    call is a GET on the data path that passes the whole payload on as
    parameters. *)
Theorem send_without_message (w : World) (message_type : string)
  (message : option string) :
  truthy message = false ->
  _send_to_tv tv message_type message None w = (Raise TypeError, w)
  /\ (forall items, lookup "target" items = None ->
        _send_to_tv tv message_type message (Some items) w
        = (Raise KeyError, w))
  /\ (forall other payload,
        _send_to_tv tv message_type message payload w
        = _send_to_tv tv other None payload w)
  /\ (forall items target, lookup "target" items = Some target ->
        sent (snd (_send_to_tv tv message_type message (Some items) w))
        = (sent w
             ++ [mkRequest GET
                   (url (self w) ++ "data?target=" ++ target ++ "&session="
                      ++ str_opt (_session (self w)))
                   None (Some items) HEADER DEFAULT_TIMEOUT])%list).
Proof.
  intros Hfalsy. split; [ | split; [ | split ] ].
  - unfold _send_to_tv, bind at 1, get_self. rewrite Hfalsy. reflexivity.
  - intros items Hnone.
    unfold _send_to_tv, bind at 1, get_self. rewrite Hfalsy.
    unfold bind at 1, bind at 1, getitem. rewrite Hnone. reflexivity.
  - intros other payload.
    unfold _send_to_tv, bind at 1, get_self. rewrite Hfalsy.
    unfold bind at 2, get_self. reflexivity.
  - intros items target Hsome.
    unfold _send_to_tv, bind at 1, get_self. rewrite Hfalsy.
    unfold bind at 1, bind at 1, getitem. rewrite Hsome.
    unfold ret, bind, print, requests_get, call. cbn.
    destruct (tv (sent w) _); reflexivity.
Qed.

(** X7: a command and a channel change are posted to the same URL:
    [dtv_wifirc] below the base URL when the protocol is exactly [hdcp],
    [command] below it for every other protocol string. *)
Theorem command_path_by_protocol (w : World) (c : Z)
  (channel : ElementTree.Element) :
  (protocol (self w) = LG_PROTOCOL.HDCP ->
   sent (snd (send_command tv c w))
   = (sent w ++ [post_request (self w) "dtv_wifirc"
                   (key_message (_session (self w)) c)])%list
   /\ sent (snd (change_channel tv tostring channel w))
      = (sent w ++ [post_request (self w) "dtv_wifirc"
                      (COMMAND (str_opt (_session (self w)))
                         LG_HANDLE_CHANNEL_CHANGE (tostring channel))])%list)
  /\ (protocol (self w) <> LG_PROTOCOL.HDCP ->
      sent (snd (send_command tv c w))
      = (sent w ++ [post_request (self w) "command"
                      (key_message (_session (self w)) c)])%list
      /\ sent (snd (change_channel tv tostring channel w))
         = (sent w ++ [post_request (self w) "command"
                         (COMMAND (str_opt (_session (self w)))
                            LG_HANDLE_CHANNEL_CHANGE (tostring channel))])%list).
Proof.
  rewrite sent_after_command, sent_after_channel.
  unfold key_request_of, channel_request_of, message_path.
  split; intros Hproto.
  - rewrite Hproto. split; reflexivity.
  - apply String.eqb_neq in Hproto. rewrite Hproto. split; reflexivity.
Qed.

End Invariants.

(** ** The auth exchange and what follows it *)

(** The auth message for a plain type and a plain value reads back as an
    [auth] root with two text-only children. *)
Lemma XML_auth_envelope (t v : string) :
  plain_text t = true -> plain_text v = true ->
  ElementTree.XML (LgNetCastClient.AUTH t v)
  = Some (ElementTree.mkElement "auth" [] None None
            [leaf "type" t; leaf "value" v]).
Proof.
  intros Ht Hv.
  unfold ElementTree.XML, LgNetCastClient.AUTH.
  change LgNetCastClient.XML with ElementTree.declaration.
  rewrite strip_prefix_app.
  set (body := "<auth><type>" ++ t ++ "</type><value>" ++ v
                 ++ "</value></auth>").
  change (ElementTree.skip_space body) with body.
  change (S (String.length body))
    with (S (S (S (S (S (8 + String.length
           (t ++ "</type><value>" ++ v ++ "</value></auth>"))))))).
  set (f := 8 + String.length _).
  change body
    with ("<" ++ "auth" ++ ">" ++ "<"
            ++ ("type" ++ ">" ++ t ++ "</" ++ "type" ++ ">" ++ "<"
            ++ ("value" ++ ">" ++ v ++ "</" ++ "value" ++ ">" ++ "</"
            ++ ("auth" ++ ">" ++ "")))).
  rewrite (read_element_parent (S (S (S (S f)))) "auth" _ ""
             [leaf "type" t; leaf "value" v]);
    [ reflexivity | reflexivity | reflexivity | ].
  apply (read_children_leaf (S f) "type" t); try reflexivity; [ exact Ht | ].
  apply (read_children_leaf f "value" v "/auth>"); try reflexivity; exact Hv.
Qed.

Lemma plain_text_truthy (s : string) :
  plain_text s = true -> truthy (Some s) = true.
Proof.
  unfold plain_text, truthy. intros H.
  apply andb_true_iff in H. tauto.
Qed.

Section Exchange.

Import LgNetCastClient Wire.

Variable tv : list Request -> Request -> option Response.
Variable parse : string -> option ElementTree.Element.

Lemma sent_after_enter_with_token (w : World) :
  truthy (access_token (self w)) = true ->
  sent (snd (__enter__ tv parse w))
  = (sent w ++ [auth_request (self w)])%list.
Proof.
  intros Htok. rewrite (enter_with_token tv parse w Htok). cbv zeta.
  destruct (tv (sent w) (auth_request (self w))) as [resp | ];
    [ | reflexivity ].
  destruct (status_code resp =? codes.ok)%Z; [ | reflexivity ].
  destruct (parse (text resp)) as [tree | ]; [ | reflexivity ].
  destruct (ElementTree.find "session" tree); reflexivity.
Qed.

(** X8: for a client whose token is plain text, entering the context posts
    one message, and that message is an XML document whose root is [auth],
    whose [type] child has the text [AuthReq] and whose [value] child has
    the token as text.  The display-key message is an [auth] root with the
    single child [type], text [AuthKeyReq]. *)
Theorem auth_request_reads_back (w : World) (token : string) :
  access_token (self w) = Some token ->
  plain_text token = true ->
  sent (snd (__enter__ tv parse w)) = (sent w ++ [auth_request (self w)])%list
  /\ data (auth_request (self w)) = Some (AUTH "AuthReq" token)
  /\ ElementTree.XML (AUTH "AuthReq" token) = Some (auth_envelope token)
  /\ child_text "type" (auth_envelope token) = Some "AuthReq"
  /\ child_text "value" (auth_envelope token) = Some token
  /\ ElementTree.XML KEY
     = Some (ElementTree.mkElement "auth" [] None None
               [leaf "type" "AuthKeyReq"]).
Proof.
  intros Htoken Hplain.
  split.
  { apply sent_after_enter_with_token. rewrite Htoken.
    exact (plain_text_truthy token Hplain). }
  split; [ unfold auth_request; rewrite Htoken; reflexivity | ].
  split; [ apply XML_auth_envelope; [ reflexivity | exact Hplain ] | ].
  split; [ reflexivity | ].
  split; [ reflexivity | ].
  vm_compute. reflexivity.
Qed.

(** X9: once entering the context has returned, the text of the [session]
    child of the TV's answer is what the next command and the next query
    carry: in the envelope's [session] element and in the URL's [session]
    parameter.  When that child has no text the session stored is [None],
    and the two carry the word [None]. *)
Theorem session_is_echoed (w : World) (resp : Response)
  (tree session : ElementTree.Element) (c : Z) (query : string) :
  truthy (access_token (self w)) = true ->
  tv (sent w) (auth_request (self w)) = Some resp ->
  status_code resp = codes.ok ->
  parse (text resp) = Some tree ->
  ElementTree.find "session" tree = Some session ->
  let w1 := snd (__enter__ tv parse w) in
  _session (self w1) = ElementTree.text session
  /\ sent (snd (send_command tv c w1))
     = (sent w ++ [auth_request (self w);
                   post_request (self w)
                     (message_path (protocol (self w)) "command")
                     (key_message (ElementTree.text session) c)])%list
  /\ sent (snd (query_data tv parse query w1))
     = (sent w ++ [auth_request (self w);
                   mkRequest GET
                     (url (self w) ++ "data?target=" ++ query ++ "&session="
                        ++ str_opt (ElementTree.text session))
                     None (Some [("target", query)]) HEADER
                     DEFAULT_TIMEOUT])%list.
Proof.
  intros Htok Htv Hok Hparse Hfind w1.
  assert (Hw1 : w1 = with_session
                       (after_post w (auth_request (self w)) resp)
                       (ElementTree.text session)).
  { subst w1. rewrite (enter_with_token tv parse w Htok). cbv zeta.
    rewrite Htv, Hok, Z.eqb_refl, Hparse, Hfind. reflexivity. }
  split; [ rewrite Hw1; reflexivity | ].
  split.
  - rewrite sent_after_command, Hw1. cbn [with_session after_post sent self].
    rewrite <- app_assoc. reflexivity.
  - rewrite sent_after_query, Hw1. cbn [with_session after_post sent self].
    rewrite <- app_assoc. reflexivity.
Qed.

End Exchange.

(** ** Writing a descriptor and reading it back *)

Lemma append_nil_r (s : string) : s ++ "" = s.
Proof.
  induction s as [ | c s IH ]; simpl; [ reflexivity | now rewrite IH ].
Qed.

Lemma length_append (a b : string) :
  String.length (a ++ b) = String.length a + String.length b.
Proof.
  induction a as [ | c a IH ]; simpl; [ reflexivity | now rewrite IH ].
Qed.

(** What the writer puts for a writable text or tail. *)
Lemma written_tail (x : option string) :
  writable_text x = true ->
  (if truthy x then ElementTree.write_chars x else "")
  = ElementTree.write_chars x.
Proof.
  destruct x as [s | ]; [ | reflexivity ].
  cbn [writable_text truthy]. intros H.
  apply andb_true_iff in H. destruct H as [H _]. rewrite H. reflexivity.
Qed.

Lemma tostring_markup (e : ElementTree.Element) :
  writable_text (ElementTree.tail e) = true ->
  ElementTree.tostring e = markup e ++ ElementTree.write_chars (ElementTree.tail e).
Proof.
  destruct e as [t a x tl cs]. cbn [ElementTree.tail]. intros Htl.
  unfold markup. cbn [ElementTree.set_tail ElementTree.tostring truthy].
  rewrite (written_tail tl Htl), append_nil_r, !append_assoc.
  reflexivity.
Qed.

(** The shape of a well-formed element as written, with what follows. *)
Lemma markup_shape (t : string) (x tl : option string)
  (cs : list ElementTree.Element) (rest : string) :
  (truthy x || negb (Nat.eqb (List.length cs) 0)) = true ->
  markup (ElementTree.mkElement t [] x tl cs) ++ rest
  = String "<" (t ++ String ">"
      (ElementTree.write_chars x
         ++ write_each cs ++ String "<" (String "/" (t ++ String ">" rest)))).
Proof.
  intros Hcontent. unfold markup.
  cbn [ElementTree.set_tail ElementTree.tostring truthy
       ElementTree.write_attribs].
  rewrite Hcontent, append_nil_r.
  change (fix write_all (l : list ElementTree.Element) : string :=
            match l with
            | [] => ""
            | c :: l' => ElementTree.tostring c ++ write_all l'
            end) with write_each.
  repeat (cbn [String.append]; rewrite ?append_assoc).
  repeat (rewrite append_assoc; cbn [String.append]).
  reflexivity.
Qed.

(** Escaped text holds no [<]: reading stops where the next tag starts. *)
Lemma read_chars_escaped (s rest : string) :
  ElementTree.read_chars (ElementTree.escape_cdata s ++ String "<" rest)
  = (ElementTree.escape_cdata s, String "<" rest).
Proof.
  induction s as [ | c s IH ]; [ reflexivity | ].
  cbn [ElementTree.escape_cdata].
  destruct (c =? "&")%char eqn:Hamp;
    [ cbn -[ElementTree.escape_cdata]; rewrite IH; reflexivity | ].
  destruct (c =? "<")%char eqn:Hlt;
    [ cbn -[ElementTree.escape_cdata]; rewrite IH; reflexivity | ].
  destruct (c =? ">")%char eqn:Hgt;
    [ cbn -[ElementTree.escape_cdata]; rewrite IH; reflexivity | ].
  cbn [String.append ElementTree.read_chars].
  rewrite Hlt, IH. reflexivity.
Qed.

(** Escaping and then replacing the entity references gives the text
    back. *)
Lemma unescape_escaped (s : string) :
  all_chars is_writable s = true ->
  ElementTree.unescape None (ElementTree.escape_cdata s) = Some s.
Proof.
  induction s as [ | c s IH ]; [ reflexivity | ].
  cbn [all_chars ElementTree.escape_cdata]. intros H.
  apply andb_true_iff in H. destruct H as [Hc Hs]. specialize (IH Hs).
  destruct (Ascii.eqb_spec c "&") as [-> | Hamp].
  { cbn -[ElementTree.escape_cdata]. rewrite IH. reflexivity. }
  destruct (Ascii.eqb_spec c "<") as [-> | Hlt].
  { cbn -[ElementTree.escape_cdata]. rewrite IH. reflexivity. }
  destruct (Ascii.eqb_spec c ">") as [-> | Hgt].
  { cbn -[ElementTree.escape_cdata]. rewrite IH. reflexivity. }
  cbn [String.append ElementTree.unescape].
  apply Ascii.eqb_neq in Hamp, Hlt, Hgt.
  unfold is_writable in Hc. rewrite Hamp, Hlt, Hgt, !orb_false_r in Hc.
  rewrite Hamp, Hc, IH. reflexivity.
Qed.

(** A writable text or tail, written and read back. *)
Lemma text_round_trip (x : option string) (rest : string) :
  writable_text x = true ->
  ElementTree.read_chars (ElementTree.write_chars x ++ String "<" rest)
  = (ElementTree.write_chars x, String "<" rest)
  /\ option_map ElementTree.chars_or_none
       (ElementTree.unescape None (ElementTree.write_chars x))
     = Some x.
Proof.
  destruct x as [s | ]; cbn [writable_text ElementTree.write_chars].
  - intros H. apply andb_true_iff in H. destruct H as [Hne Hs].
    split; [ apply read_chars_escaped | ].
    rewrite (unescape_escaped s Hs). cbn [option_map].
    unfold ElementTree.chars_or_none.
    destruct (s =? ""); [ discriminate Hne | reflexivity ].
  - intros _. split; reflexivity.
Qed.

Lemma well_formed_parts (t : string) (a : list (string * string))
  (x tl : option string) (cs : list ElementTree.Element) :
  well_formed (ElementTree.mkElement t a x tl cs) = true ->
  ElementTree.valid_name t = true
  /\ all_chars ElementTree.is_name_char t = true
  /\ a = []
  /\ writable_text x = true
  /\ writable_text tl = true
  /\ (truthy x || negb (Nat.eqb (List.length cs) 0)) = true
  /\ forallb well_formed cs = true.
Proof.
  cbn [well_formed]. intros H.
  repeat (apply andb_true_iff in H; destruct H as [H ?]).
  destruct a; [ | discriminate ]. tauto.
Qed.

(** Whatever is written for a list of well-formed elements, followed by a
    closing tag, starts with [<]. *)
Lemma write_each_starts (l : list ElementTree.Element) (rest : string) :
  forallb well_formed l = true ->
  exists more, write_each l ++ String "<" (String "/" rest) = String "<" more.
Proof.
  destruct l as [ | [t a x tl cs] l ]; cbn [write_each forallb].
  - intros _. eexists. reflexivity.
  - intros H. apply andb_true_iff in H. destruct H as [Hc _].
    destruct (well_formed_parts _ _ _ _ _ Hc)
      as [_ [_ [-> [_ [Htl [Hcontent _]]]]]].
    rewrite (tostring_markup (ElementTree.mkElement t [] x tl cs) Htl),
      !append_assoc, (markup_shape _ _ _ _ _ Hcontent).
    eexists. reflexivity.
Qed.

(** If each element of a list reads back, so does the list as the content
    of a parent, up to the parent's closing tag. *)
Lemma children_read_back (cs : list ElementTree.Element) :
  Forall reads_back cs ->
  forallb well_formed cs = true ->
  forall (fuel : nat) (rest : string),
    need_all cs <= fuel ->
    ElementTree.read_children fuel
      (write_each cs ++ String "<" (String "/" rest))
    = Some (cs, String "<" (String "/" rest)).
Proof.
  induction 1 as [ | c l Hc _ IH ]; intros Hwf fuel rest Hfuel.
  - destruct fuel as [ | fuel ]; [ cbn in Hfuel; lia | reflexivity ].
  - cbn [forallb] in Hwf. apply andb_true_iff in Hwf.
    destruct Hwf as [Hwc Hwl].
    change (need_all (c :: l)) with (S (need c + need_all l)) in Hfuel.
    destruct fuel as [ | fuel ]; [ lia | ].
    rewrite read_children_step.
    destruct (write_each_starts l rest Hwl) as [more Hmore].
    destruct c as [t a x tl cs].
    destruct (well_formed_parts _ _ _ _ _ Hwc)
      as [Hv [Hn [-> [Hx [Htl [Hcontent Hcs]]]]]].
    cbn [write_each].
    rewrite (tostring_markup (ElementTree.mkElement t [] x tl cs) Htl),
      !append_assoc.
    cbn [ElementTree.tail].
    rewrite (markup_shape t x tl cs _ Hcontent).
    rewrite (open_tag_not_close t _ Hv).
    rewrite <- (markup_shape t x tl cs _ Hcontent).
    rewrite (Hc Hwc fuel _ ltac:(lia)).
    rewrite Hmore.
    destruct (text_round_trip tl more Htl) as [Hread Hback].
    rewrite Hread.
    destruct (ElementTree.unescape None (ElementTree.write_chars tl))
      as [tail_text | ]; [ | discriminate Hback ].
    cbn [option_map] in Hback. injection Hback as Hback.
    rewrite <- Hmore, (IH Hwl fuel rest ltac:(lia)), Hback.
    reflexivity.
Qed.

(** Every well-formed element reads back. *)
Lemma element_reads_back (e : ElementTree.Element) : reads_back e.
Proof.
  induction e as [t a x tl cs IH] using Element_forall_ind.
  intros Hwf fuel rest Hfuel.
  destruct (well_formed_parts _ _ _ _ _ Hwf)
    as [Hv [Hn [-> [Hx [_ [Hcontent Hcs]]]]]].
  change (need (ElementTree.mkElement t [] x tl cs))
    with (S (need_all cs)) in Hfuel.
  destruct fuel as [ | fuel ]; [ lia | ].
  rewrite (markup_shape t x tl cs rest Hcontent).
  cbn [ElementTree.read_element Ascii.eqb Bool.eqb].
  rewrite (name_char_not_gt t _ Hn), Hv.
  cbn [Ascii.eqb Bool.eqb].
  destruct (write_each_starts cs (t ++ String ">" rest) Hcs) as [more Hmore].
  rewrite Hmore.
  destruct (text_round_trip x more Hx) as [Hread Hback].
  rewrite Hread.
  destruct (ElementTree.unescape None (ElementTree.write_chars x))
    as [own_text | ]; [ | discriminate Hback ].
  cbn [option_map] in Hback. injection Hback as Hback.
  rewrite <- Hmore.
  rewrite (children_read_back cs IH Hcs fuel _ ltac:(lia)).
  rewrite strip_closing_tag, Hback. reflexivity.
Qed.

(** The fuel an element needs is less than the number of characters it is
    written with. *)
Lemma need_below_length (e : ElementTree.Element) :
  well_formed e = true -> need e < String.length (markup e).
Proof.
  induction e as [t a x tl cs IH] using Element_forall_ind.
  intros Hwf.
  destruct (well_formed_parts _ _ _ _ _ Hwf)
    as [_ [_ [-> [_ [_ [Hcontent Hcs]]]]]].
  change (need (ElementTree.mkElement t [] x tl cs)) with (S (need_all cs)).
  rewrite <- (append_nil_r (markup _)), (markup_shape t x tl cs "" Hcontent).
  repeat (progress (cbn [String.length]; rewrite ?length_append)).
  assert (Hall : need_all cs <= 1 + String.length (write_each cs)).
  { clear Hcontent Hwf. induction IH as [ | c l Hc _ IHl ].
    - cbn. lia.
    - cbn [forallb] in Hcs. apply andb_true_iff in Hcs.
      destruct Hcs as [Hwc Hwl].
      change (need_all (c :: l)) with (S (need c + need_all l)).
      cbn [write_each]. rewrite length_append.
      specialize (Hc Hwc). specialize (IHl Hwl).
      assert (Hlen : String.length (markup c)
                     <= String.length (ElementTree.tostring c)).
      { destruct c as [t' a' x' tl' cs'].
        destruct (well_formed_parts _ _ _ _ _ Hwc)
          as [_ [_ [_ [_ [Htl _]]]]].
        rewrite (tostring_markup (ElementTree.mkElement t' a' x' tl' cs') Htl),
          length_append.
        lia. }
      lia. }
  lia.
Qed.

(** The channel-change envelope reads back as a [command] root with the
    session, the type and the descriptor as its children. *)
Lemma XML_channel_envelope (s t : string) (channel : ElementTree.Element) :
  plain_text s = true -> plain_text t = true ->
  well_formed channel = true ->
  ElementTree.XML
    (LgNetCastClient.COMMAND s t (ElementTree.tostring channel))
  = Some (ElementTree.mkElement "command" [] None None
            [leaf "session" s; leaf "type" t; channel]).
Proof.
  intros Hs Ht Hwf.
  unfold ElementTree.XML, LgNetCastClient.COMMAND.
  change LgNetCastClient.XML with ElementTree.declaration.
  rewrite strip_prefix_app.
  set (body := "<command><session>" ++ s ++ "</session><type>" ++ t
                 ++ "</type>" ++ ElementTree.tostring channel ++ "</command>").
  change (ElementTree.skip_space body) with body.
  assert (Hfuel : exists f,
            S (String.length body) = S (S (S (S (S f))))
            /\ need_all [channel] <= S (S f)).
  { exists (String.length body - 4).
    pose proof (need_below_length channel Hwf) as Hneed.
    assert (Hlen : String.length (markup channel)
                   <= String.length (ElementTree.tostring channel)).
    { destruct channel as [t' a' x' tl' cs'].
      destruct (well_formed_parts _ _ _ _ _ Hwf) as [_ [_ [_ [_ [Htl _]]]]].
      rewrite (tostring_markup (ElementTree.mkElement t' a' x' tl' cs') Htl),
        length_append.
      lia. }
    assert (Hbody : 18 + String.length (ElementTree.tostring channel)
                    <= String.length body).
    { unfold body. cbn [String.append].
      repeat (progress (cbn [String.length]; rewrite ?length_append)).
      lia. }
    change (need_all [channel]) with (S (need channel + 1)).
    lia. }
  destruct Hfuel as [f [Hf Hneed]]. rewrite Hf.
  assert (Hcs : forallb well_formed [channel] = true)
    by (cbn [forallb]; rewrite Hwf; reflexivity).
  destruct (write_each_starts [channel] "command>" Hcs) as [more Hmore].
  assert (Hbody : body
            = "<" ++ "command" ++ ">" ++ "<"
                ++ ("session" ++ ">" ++ s ++ "</" ++ "session" ++ ">" ++ "<"
                ++ ("type" ++ ">" ++ t ++ "</" ++ "type" ++ ">" ++ "<"
                ++ more))).
  { unfold body. cbn [String.append]. do 2 f_equal.
    change (String "<" more) with ("<" ++ more) in Hmore.
    cbn [String.append] in Hmore. rewrite <- Hmore.
    cbn [write_each]. rewrite append_nil_r. reflexivity. }
  rewrite Hbody.
  rewrite (read_element_parent (S (S (S (S f)))) "command" _ ""
             [leaf "session" s; leaf "type" t; channel]);
    [ reflexivity | reflexivity | reflexivity | ].
  apply (read_children_leaf (S f) "session" s); try reflexivity; [ exact Hs | ].
  apply (read_children_leaf f "type" t); try reflexivity; [ exact Ht | ].
  change ("<" ++ more) with (String "<" more). rewrite <- Hmore.
  apply children_read_back; [ | exact Hcs | exact Hneed ].
  constructor; [ apply element_reads_back | constructor ].
Qed.

Section ChannelChange.

Import LgNetCastClient Wire.

Variable tv : list Request -> Request -> option Response.

(** X10: for a client whose session is plain text and a well-formed
    channel descriptor (plain tag names, no attributes, no element without
    content; its texts may hold markup characters, which the writer
    escapes), [change_channel] posts one message, and that message is an
    XML document whose root is [command], with the session, the type
    [HandleChannelChange] and then the descriptor itself, unchanged, as its
    three children. *)
Theorem channel_envelope_round_trip (w : World) (s : string)
  (channel : ElementTree.Element) :
  _session (self w) = Some s ->
  plain_text s = true ->
  well_formed channel = true ->
  let message := COMMAND s LG_HANDLE_CHANNEL_CHANGE
                         (ElementTree.tostring channel) in
  let r := channel_request_of (self w) (ElementTree.tostring channel) in
  sent (snd (change_channel tv ElementTree.tostring channel w))
  = (sent w ++ [r])%list
  /\ method r = POST
  /\ data r = Some message
  /\ ElementTree.XML message = Some (channel_envelope s channel)
  /\ child_text "session" (channel_envelope s channel) = Some s
  /\ child_text "type" (channel_envelope s channel)
     = Some LG_HANDLE_CHANNEL_CHANGE
  /\ nth_error (ElementTree.children (channel_envelope s channel)) 2
     = Some channel.
Proof.
  intros Hsession Hplain Hwf message r. subst message r.
  split; [ apply sent_after_channel | ].
  split; [ reflexivity | ].
  split; [ unfold channel_request_of; rewrite Hsession; reflexivity | ].
  split; [ apply XML_channel_envelope;
           [ exact Hplain | reflexivity | exact Hwf ] | ].
  split; [ reflexivity | split; reflexivity ].
Qed.

End ChannelChange.

(** ** Transport errors and printed lines *)

Section Transport.

Import LgNetCastClient Wire.

Variable tv : list Request -> Request -> option Response.
Variable parse : string -> option ElementTree.Element.
Variable tostring : ElementTree.Element -> string.

(** X11: every line the client prints.  Entering the context with a token
    prints the auth message, token included, and the URL before the request
    is made, and the body of the answer once there is one; a command prints
    its envelope, session included, in the same way; a query prints its
    target and URL.  A call whose transport raises has printed its first
    line only. *)
Theorem requests_are_printed (w : World) (c : Z) (query : string) :
  let received (r : Request) : list string :=
    match tv (sent w) r with
    | Some resp => [("Received: " ++ text resp)%string]
    | None => []
    end in
  (truthy (access_token (self w)) = true ->
   stdout (snd (__enter__ tv parse w))
   = (stdout w
        ++ [("POST " ++ AUTH "AuthReq" (str_opt (access_token (self w)))
               ++ " to " ++ url (self w) ++ "auth")%string]
        ++ received (auth_request (self w)))%list)
  /\ stdout (snd (send_command tv c w))
     = (stdout w
          ++ [("POST " ++ key_message (_session (self w)) c ++ " to "
                 ++ req_url (key_request_of (self w) c))%string]
          ++ received (key_request_of (self w) c))%list
  /\ stdout (snd (query_data tv parse query w))
     = (stdout w
          ++ [("GET " ++ query ++ " from "
                 ++ req_url (data_request (self w) query))%string]
          ++ received (data_request (self w) query))%list.
Proof.
  intros received. subst received. split; [ | split ].
  - intros Htok. rewrite (enter_with_token tv parse w Htok). cbv zeta.
    destruct (tv (sent w) (auth_request (self w))) as [resp | ];
      [ | reflexivity ].
    destruct (status_code resp =? codes.ok)%Z;
      [ destruct (parse (text resp)) as [tree | ];
        [ destruct (ElementTree.find "session" tree) | ] | ];
      cbn [snd with_session after_post stdout];
      rewrite <- app_assoc; reflexivity.
  - rewrite send_command_run. cbv zeta.
    destruct (tv (sent w) (key_request_of (self w) c));
      cbn [snd after_post after_failed_post stdout];
      rewrite <- ?app_assoc; reflexivity.
  - rewrite query_data_run. cbv zeta.
    destruct (tv (sent w) (data_request (self w) query)) as [resp | ];
      [ | reflexivity ].
    destruct (status_code resp =? codes.ok)%Z;
      [ destruct (parse (text resp)) | ];
      cbn [snd after_get stdout]; rewrite <- app_assoc; reflexivity.
Qed.

(** X12: no call swallows a transport error.  When the TV cannot be
    reached, entering the context (with or without a token), a command, a
    channel change and a query all raise the transport's exception, and the
    client object is as it was. *)
Theorem transport_errors_propagate (w : World) (c : Z)
  (channel : ElementTree.Element) (query : string) :
  (forall r, tv (sent w) r = None) ->
  __enter__ tv parse w
  = (Raise RequestException,
     after_failed_post w
       (if truthy (access_token (self w))
        then auth_request (self w) else key_request (self w)))
  /\ send_command tv c w
     = (Raise RequestException,
        after_failed_post w (key_request_of (self w) c))
  /\ change_channel tv tostring channel w
     = (Raise RequestException,
        after_failed_post w (channel_request_of (self w) (tostring channel)))
  /\ query_data tv parse query w
     = (Raise RequestException,
        after_failed_get w (data_request (self w) query) query).
Proof.
  intros Hdown. split; [ | split; [ | split ] ].
  - destruct (truthy (access_token (self w))) eqn:Htok.
    + rewrite (enter_with_token tv parse w Htok). cbv zeta.
      rewrite Hdown. reflexivity.
    + rewrite (enter_without_token tv parse w Htok). cbv zeta.
      rewrite Hdown. reflexivity.
  - rewrite send_command_run. cbv zeta. rewrite Hdown. reflexivity.
  - rewrite change_channel_run. cbv zeta. rewrite Hdown. reflexivity.
  - rewrite query_data_run. cbv zeta. rewrite Hdown. reflexivity.
Qed.

End Transport.

(** ** The further properties at work *)

Section FurtherInstances.

Import LgNetCastClient Wire Scenario.

Lemma enter_failure_keeps_client_witness :
  fst (__enter__ (tv_answering garbled) ElementTree.XML connected)
  = Raise ParseError
  /\ self (snd (__enter__ (tv_answering garbled) ElementTree.XML connected))
     = self connected
  /\ _session (self (snd (__enter__ (tv_answering garbled) ElementTree.XML
                            connected)))
     = Some "1234567890".
Proof.
  assert (Hraise : fst (__enter__ (tv_answering garbled) ElementTree.XML
                          connected) = Raise ParseError)
    by (vm_compute; reflexivity).
  pose proof (enter_failure_keeps_client (tv_answering garbled)
                ElementTree.XML connected ParseError Hraise) as Hkept.
  split; [ exact Hraise | split; [ exact Hkept | ] ].
  rewrite Hkept. vm_compute. reflexivity.
Defined.

Lemma enter_return_inversion_witness :
  fst (__enter__ (tv_answering granted) ElementTree.XML paired)
  = Return (self connected)
  /\ truthy (access_token (self paired)) = true
  /\ exists resp tree session,
       tv_answering granted (sent paired) (auth_request (self paired))
       = Some resp
       /\ status_code resp = codes.ok
       /\ ElementTree.XML (text resp) = Some tree
       /\ ElementTree.find "session" tree = Some session
       /\ self connected
          = mkClient (url (self paired)) (access_token (self paired))
                     (protocol (self paired)) (ElementTree.text session)
       /\ self (snd (__enter__ (tv_answering granted) ElementTree.XML paired))
          = self connected
       /\ sent (snd (__enter__ (tv_answering granted) ElementTree.XML paired))
          = (sent paired ++ [auth_request (self paired)])%list.
Proof.
  assert (Hret : fst (__enter__ (tv_answering granted) ElementTree.XML paired)
                 = Return (self connected))
    by (vm_compute; reflexivity).
  split; [ exact Hret | ].
  exact (enter_return_inversion (tv_answering granted) ElementTree.XML paired
           (self connected) Hret).
Defined.

Lemma exit_restores_client_witness :
  _session (self paired) = None
  /\ _session (self connected) = Some "1234567890"
  /\ fst (__exit__ connected) = Return tt
  /\ sent (snd (__exit__ connected)) = sent connected
  /\ stdout (snd (__exit__ connected)) = stdout connected
  /\ _session (self (snd (__exit__ connected))) = None
  /\ self (snd (__exit__ (snd (__enter__ (tv_answering granted)
                                 ElementTree.XML paired))))
     = self paired.
Proof.
  assert (Hnone : _session (self paired) = None) by reflexivity.
  destruct (exit_restores_client (tv_answering granted) ElementTree.XML
              connected) as [Hret [Hsent [Hout [Hself _]]]].
  destruct (exit_restores_client (tv_answering granted) ElementTree.XML
              paired) as [_ [_ [_ [_ [_ Hback]]]]].
  split; [ exact Hnone | ].
  split; [ vm_compute; reflexivity | ].
  split; [ exact Hret | ].
  split; [ exact Hsent | ].
  split; [ exact Hout | ].
  split; [ rewrite Hself; reflexivity | exact (Hback Hnone) ].
Defined.

Lemma send_without_message_witness :
  truthy (Some "") = false
  /\ _send_to_tv (tv_answering granted) "command" (Some "") None connected
     = (Raise TypeError, connected)
  /\ _send_to_tv (tv_answering granted) "command" (Some "")
       (Some [("channel", "7")]) connected
     = (Raise KeyError, connected)
  /\ sent (snd (_send_to_tv (tv_answering granted) "command" (Some "")
                  (Some [("target", "volume_info"); ("extra", "1")])
                  connected))
     = (sent connected
          ++ [mkRequest GET
                (url (self connected) ++ "data?target=" ++ "volume_info"
                   ++ "&session=" ++ str_opt (_session (self connected)))
                None (Some [("target", "volume_info"); ("extra", "1")])
                HEADER DEFAULT_TIMEOUT])%list.
Proof.
  assert (Hfalsy : truthy (Some "") = false) by reflexivity.
  destruct (send_without_message (tv_answering granted) connected "command"
              (Some "") Hfalsy) as [Htype [Hkey [_ Hget]]].
  split; [ exact Hfalsy | ].
  split; [ exact Htype | ].
  split; [ exact (Hkey [("channel", "7")] eq_refl) | ].
  exact (Hget [("target", "volume_info"); ("extra", "1")] "volume_info"
           eq_refl).
Defined.

Lemma command_path_by_protocol_witness :
  (protocol (self legacy) = LG_PROTOCOL.HDCP
   /\ protocol (self (fresh host (Some token) "HDCP")) <> LG_PROTOCOL.HDCP)
  /\ sent (snd (change_channel (tv_answering failing) ElementTree.tostring
                  channel legacy))
     = [post_request (self legacy) "dtv_wifirc"
          (COMMAND "None" LG_HANDLE_CHANNEL_CHANGE
             (ElementTree.tostring channel))]
  /\ sent (snd (send_command (tv_answering failing) LG_COMMAND.POWER
                  (fresh host (Some token) "HDCP")))
     = [post_request (self (fresh host (Some token) "HDCP")) "command"
          (key_message None LG_COMMAND.POWER)].
Proof.
  assert (Hother : protocol (self (fresh host (Some token) "HDCP"))
                   <> LG_PROTOCOL.HDCP)
    by (vm_compute; discriminate).
  split; [ split; [ reflexivity | exact Hother ] | ].
  split.
  - exact (proj2 (proj1 (command_path_by_protocol (tv_answering failing)
                           ElementTree.tostring legacy LG_COMMAND.POWER
                           channel) eq_refl)).
  - exact (proj1 (proj2 (command_path_by_protocol (tv_answering failing)
                           ElementTree.tostring
                           (fresh host (Some token) "HDCP")
                           LG_COMMAND.POWER channel) Hother)).
Defined.

Lemma auth_request_reads_back_witness :
  (access_token (self paired) = Some token /\ plain_text token = true)
  /\ sent (snd (__enter__ tv_unreachable ElementTree.XML paired))
     = [auth_request (self paired)]
  /\ ElementTree.XML (AUTH "AuthReq" token) = Some (auth_envelope token)
  /\ child_text "value" (auth_envelope token) = Some "123456".
Proof.
  assert (Hplain : plain_text token = true) by (vm_compute; reflexivity).
  destruct (auth_request_reads_back tv_unreachable ElementTree.XML paired
              token eq_refl Hplain) as [Hsent [_ [Hread [_ [Hvalue _]]]]].
  split; [ split; [ reflexivity | exact Hplain ] | ].
  split; [ exact Hsent | split; [ exact Hread | exact Hvalue ] ].
Defined.

Lemma session_is_echoed_witness :
  (truthy (access_token (self paired)) = true
   /\ tv_answering blank (sent paired) (auth_request (self paired))
      = Some blank
   /\ status_code blank = codes.ok
   /\ ElementTree.XML (text blank) = Some blank_tree
   /\ ElementTree.find "session" blank_tree
      = Some (ElementTree.mkElement "session" [] None None []))
  /\ _session (self (snd (__enter__ (tv_answering blank) ElementTree.XML
                            paired)))
     = None
  /\ sent (snd (send_command (tv_answering blank) LG_COMMAND.OK
                  (snd (__enter__ (tv_answering blank) ElementTree.XML
                          paired))))
     = [auth_request (self paired);
        post_request (self paired) "command"
          (key_message None LG_COMMAND.OK)].
Proof.
  assert (Hparse : ElementTree.XML (text blank) = Some blank_tree)
    by (vm_compute; reflexivity).
  pose proof (session_is_echoed (tv_answering blank) ElementTree.XML paired
                blank blank_tree
                (ElementTree.mkElement "session" [] None None [])
                LG_COMMAND.OK LG_QUERY.CUR_CHANNEL
                eq_refl eq_refl eq_refl Hparse eq_refl) as H.
  cbv zeta in H. destruct H as [Hsession [Hcommand _]].
  split; [ repeat split; exact Hparse | ].
  split; [ exact Hsession | exact Hcommand ].
Defined.

Lemma channel_envelope_round_trip_witness :
  (_session (self connected) = Some "1234567890"
   /\ plain_text "1234567890" = true
   /\ well_formed channel = true)
  /\ ElementTree.XML
       (COMMAND "1234567890" LG_HANDLE_CHANNEL_CHANGE
          (ElementTree.tostring channel))
     = Some (channel_envelope "1234567890" channel)
  /\ data (channel_request_of (self connected)
             (ElementTree.tostring channel))
     = Some (COMMAND "1234567890" LG_HANDLE_CHANNEL_CHANGE
               (ElementTree.tostring channel)).
Proof.
  assert (Hs : _session (self connected) = Some "1234567890")
    by (vm_compute; reflexivity).
  assert (Hp : plain_text "1234567890" = true) by (vm_compute; reflexivity).
  assert (Hwf : well_formed channel = true) by (vm_compute; reflexivity).
  pose proof (channel_envelope_round_trip (tv_answering failing) connected
                "1234567890" channel Hs Hp Hwf) as H.
  cbv zeta in H. destruct H as [_ [_ [Hdata [Hread _]]]].
  split; [ split; [ exact Hs | split; [ exact Hp | exact Hwf ] ] | ].
  split; [ exact Hread | exact Hdata ].
Defined.

Lemma requests_are_printed_witness :
  truthy (access_token (self paired)) = true
  /\ stdout (snd (__enter__ (tv_answering refused) ElementTree.XML paired))
     = [("POST " ++ AUTH "AuthReq" "123456" ++ " to "
           ++ "http://192.168.1.10:8080/roap/api/auth")%string;
        "Received: <envelope><ROAPError>401</ROAPError></envelope>"].
Proof.
  assert (Htok : truthy (access_token (self paired)) = true) by reflexivity.
  split; [ exact Htok | ].
  exact (proj1 (requests_are_printed (tv_answering refused) ElementTree.XML
                  paired LG_COMMAND.OK LG_QUERY.IS_3D) Htok).
Defined.

Lemma transport_errors_propagate_witness :
  (forall r, tv_unreachable (sent connected) r = None)
  /\ fst (send_command tv_unreachable LG_COMMAND.OK connected)
     = Raise RequestException
  /\ fst (query_data tv_unreachable ElementTree.XML LG_QUERY.IS_3D connected)
     = Raise RequestException
  /\ self (snd (__enter__ tv_unreachable ElementTree.XML connected))
     = self connected.
Proof.
  assert (Hdown : forall r, tv_unreachable (sent connected) r = None)
    by (intros r; reflexivity).
  destruct (transport_errors_propagate tv_unreachable ElementTree.XML
              ElementTree.tostring connected LG_COMMAND.OK channel
              LG_QUERY.IS_3D Hdown) as [Henter [Hcommand [_ Hquery]]].
  split; [ exact Hdown | ].
  split; [ rewrite Hcommand; reflexivity | ].
  split; [ rewrite Hquery; reflexivity | ].
  rewrite Henter. reflexivity.
Defined.

End FurtherInstances.
